(** * Retrieval-augmented decision pipeline: embedding and verification

  Shallow embedding of the pipeline code of the repository
  ([gemini_llm.py], [document_processor.py], [simple_document_processor.py]
  and the [/query] handler of [main.py]) and the proofs of its specified
  properties.

  Python strings are sequences of Unicode code points, Python integers are
  unbounded: a [str] is a [list N] and an [int] is a [Z]. *)

From Stdlib Require DecimalString DecimalZ.
From Stdlib Require Import String Ascii.
From Stdlib Require Import List ZArith NArith Lia Bool.
Import ListNotations.

Local Set Warnings "-register-all".
Local Open Scope Z_scope.

(** ** Python strings *)

Module PyStr.

Definition str := list N.

(** A literal of the source, as its sequence of code points. *)
Definition py (s : string) : str := map N_of_ascii (list_ascii_of_string s).

Definition quote : str := [34%N].
Definition newline : str := [10%N].
Definition quote' : str := [39%N].

(** [len(s)] *)
Definition len (s : str) : Z := Z.of_nat (List.length s).

Fixpoint str_eqb (a b : str) : bool :=
  match a, b with
  | [], [] => true
  | x :: a', y :: b' => N.eqb x y && str_eqb a' b'
  | _, _ => false
  end.

(** [str(i)] for an integer. *)
Definition str_of_int (z : Z) : str := py (DecimalString.NilZero.string_of_int (Z.to_int z)).

(** [c.isspace()] for one code point: the code points CPython's
    [Py_UNICODE_ISSPACE] accepts, which [str.strip()] and [str.split()] use. *)
Definition isspace (c : N) : bool :=
  ((9 <=? c) && (c <=? 13) || (28 <=? c) && (c <=? 32)
   || (c =? 133) || (c =? 160) || (c =? 5760)
   || (8192 <=? c) && (c <=? 8202)
   || (c =? 8232) || (c =? 8233) || (c =? 8239) || (c =? 8287)
   || (c =? 12288))%N.

Fixpoint lstrip (s : str) : str :=
  match s with
  | c :: s' => if isspace c then lstrip s' else s
  | [] => []
  end.

Definition rstrip (s : str) : str := rev (lstrip (rev s)).

(** [s.strip()] *)
Definition strip (s : str) : str := rstrip (lstrip s).

(** [s.startswith(p)] *)
Fixpoint startswith (p s : str) : bool :=
  match p, s with
  | [], _ => true
  | x :: p', y :: s' => N.eqb x y && startswith p' s'
  | _ :: _, [] => false
  end.

(** [p in s] for two strings: [p] occurs in [s] as a substring. *)
Fixpoint contains (p s : str) : bool :=
  startswith p s || match s with [] => false | _ :: s' => contains p s' end.

(** [s.replace(old, new)] for a non-empty [old]: occurrences are replaced
    from the left and do not overlap; [skip] counts the characters of an
    occurrence still to be dropped. *)
Fixpoint replace_from (old new : str) (skip : nat) (s : str) : str :=
  match s with
  | [] => []
  | c :: s' =>
      match skip with
      | S k => replace_from old new k s'
      | O =>
          if startswith old s
          then new ++ replace_from old new (List.length old - 1)%nat s'
          else c :: replace_from old new 0 s'
      end
  end.

Definition replace (old new s : str) : str := replace_from old new 0 s.

(** [c.lower()] on the ASCII letters; other code points are kept. *)
Definition lower_char (c : N) : N :=
  if ((65 <=? c) && (c <=? 90))%N then (c + 32)%N else c.

(** [s[:n]] for [n >= 0]. *)
Definition slice_to (n : nat) (s : str) : str := firstn n s.

(** [sep.join(l)] *)
Fixpoint join (sep : str) (l : list str) : str :=
  match l with
  | [] => []
  | w :: rest =>
      match rest with
      | [] => w
      | _ :: _ => w ++ sep ++ join sep rest
      end
  end.

(** Puts [c] in front of the first word of [ws]. *)
Definition cons_word (c : N) (ws : list str) : list str :=
  match ws with
  | w :: ws' => (c :: w) :: ws'
  | [] => [[c]]
  end.

(** [s.split()]: the maximal runs of non-whitespace characters, in order. *)
Fixpoint split (s : str) : list str :=
  match s with
  | [] => []
  | c :: s' =>
      if isspace c then split s'
      else
        match s' with
        | [] => [[c]]
        | d :: _ => if isspace d then [c] :: split s' else cons_word c (split s')
        end
  end.

End PyStr.

Import PyStr.

(** [len(l)] for a list. *)
Definition len' {A} (l : list A) : Z := Z.of_nat (List.length l).

(** [not l] for a list. *)
Definition is_empty {A} (l : list A) : bool :=
  match l with [] => true | _ => false end.

(** ** [simple_document_processor.py]: the word-based chunker *)

Module SimpleDocumentProcessor.

(** The three local variables of the loop of [split_text_into_chunks]. *)
Record chunker := {
  chunks : list str;
  current_chunk : list str;
  current_length : Z
}.

(** One iteration of [for word in words]. *)
Definition chunk_step (chunk_size : Z) (st : chunker) (word : str) : chunker :=
  if (current_length st + len word + 1 >? chunk_size) && negb (is_empty (current_chunk st))
  then {| chunks := chunks st ++ [join (py " ") (current_chunk st)];
          current_chunk := [word];
          current_length := len word |}
  else {| chunks := chunks st;
          current_chunk := current_chunk st ++ [word];
          current_length := current_length st + len word + 1 |}.

Definition chunk_loop (chunk_size : Z) (words : list str) (st : chunker) : chunker :=
  fold_left (chunk_step chunk_size) words st.

Definition split_text_into_chunks (text : str) (chunk_size : Z) : list str :=
  let st := chunk_loop chunk_size (split text)
              {| chunks := []; current_chunk := []; current_length := 0 |} in
  if negb (is_empty (current_chunk st))
  then chunks st ++ [join (py " ") (current_chunk st)]
  else chunks st.

(** The default of the [chunk_size] argument. *)
Definition default_chunk_size : Z := 1000.

End SimpleDocumentProcessor.

(** ** JSON values, as [json.loads] returns them and as the handlers return them *)

Module Json.

Inductive json :=
| JNull
| JBool (b : bool)
| JInt (z : Z)
| JFloat (literal : str)
| JStr (s : str)
| JList (items : list json)
| JDict (items : list (str * json)).

(** [d.get(key)] on the items of a dict. *)
Fixpoint lookup (key : str) (kvs : list (str * json)) : option json :=
  match kvs with
  | [] => None
  | (k, v) :: rest => if str_eqb key k then Some v else lookup key rest
  end.

(** [key in v] for a string [key]: membership among the keys of a dict,
    among the elements of a list, as a substring of a string; the other
    values are not containers and the test raises [TypeError] ([None]). *)
Definition py_in (key : str) (v : json) : option bool :=
  match v with
  | JDict kvs => Some (existsb (fun kv => str_eqb key (fst kv)) kvs)
  | JList l =>
      Some (existsb (fun x => match x with JStr s => str_eqb key s | _ => false end) l)
  | JStr s => Some (contains key s)
  | JNull | JBool _ | JInt _ | JFloat _ => None
  end.

(** [all(key in v for key in keys)], which stops at the first [False]. *)
Fixpoint all_in (keys : list str) (v : json) : option bool :=
  match keys with
  | [] => Some true
  | k :: ks =>
      match py_in k v with
      | None => None
      | Some false => Some false
      | Some true => all_in ks v
      end
  end.

(** [v[key]] for a string [key]: only a dict can be indexed by a string. *)
Definition getitem (v : json) (key : str) : option json :=
  match v with
  | JDict kvs => lookup key kvs
  | _ => None
  end.

End Json.

Import Json.

(** ** Exceptions and results *)

Inductive exn :=
| HTTPException (status_code : Z) (detail : str)
| Error (message : str).

(** [str(e)] *)
Definition str_of_exn (e : exn) : str :=
  match e with
  | HTTPException status detail => str_of_int status ++ py ": " ++ detail
  | Error message => message
  end.

Inductive result (A : Type) :=
| Returned (a : A)
| Raised (e : exn).

Arguments Returned {A} a.
Arguments Raised {A} e.

(** What the call [self.model.generate_content(prompt)] gives: a response,
    taken with its [text], or an exception. A response whose [text] cannot
    be read is not among the outcomes: the operations below are about a call
    that raises and about a response that has a text. *)
Inductive generation :=
| Generated (text : str)
| GenerationError (message : str).

(** [enumerate(l)], counting from [start]. *)
Fixpoint enumerate_from {A} (start : Z) (l : list A) : list (Z * A) :=
  match l with
  | [] => []
  | x :: rest => (start, x) :: enumerate_from (start + 1) rest
  end.

Definition enumerate {A} (l : list A) : list (Z * A) := enumerate_from 0 l.

(** [bytes] *)
Definition bytes := list Byte.byte.

(** The two shapes of the dict that [process_document] returns:
    [{"success": False, "error": ...}] and
    [{"success": True, "text": ..., "chunks_count": ..., "vector_ids": ...}]. *)
Inductive ingest_result :=
| IngestFailure (error : str)
| IngestSuccess (text : str) (chunks_count : Z) (vector_ids : list str).

Definition success (r : ingest_result) : bool :=
  match r with IngestFailure _ => false | IngestSuccess _ _ _ => true end.

(** The body of a [/query] request: its [query] and [document_id] entries. *)
Record query_request := {
  request_query : option str;
  request_document_id : option Z
}.

(** The metadata of a stored vector; a match returned by the index may lack
    any of the keys. *)
Record metadata := {
  md_document_id : option Z;
  md_chunk_index : option Z;
  md_text : option str
}.

(** ** The external collaborators

    The language model, the vector index, the JSON library, the document
    readers, the text splitter of the ingest pipeline, the relational store
    and the random identifiers are not code of the repository: the pipeline is
    verified for every behaviour of theirs. *)

Class Externals := {
  score : Type;
  vector : Type;
  index_state : Type;
  (** [f"{score:.3f}"] *)
  format_score : score -> str;
  (** [json.loads]; [None] is a [JSONDecodeError]. *)
  json_loads : str -> option json;
  (** [json.dumps] *)
  json_dumps : json -> str;
  (** The answer of the model to a prompt, which may depend on how many
      calls were made before. *)
  generate_content : nat -> str -> generation;
  (** The texts of the pages of a PDF, of the paragraphs of a DOCX; [None]
      when the reader or the extraction raises. *)
  pdf_pages : bytes -> option (list str);
  docx_paragraphs : bytes -> option (list str);
  (** [bytes.decode('utf-8', errors='ignore')] *)
  decode_utf8_ignore : bytes -> str;
  (** [RecursiveCharacterTextSplitter.split_text] with the configured sizes. *)
  text_splitter_split_text : str -> list str;
  (** The embedding of one text by [create_simple_embeddings]: it depends on
      the iteration order of a Python set and on floating point. *)
  simple_embedding : str -> vector;
  (** [uuid.uuid4().hex[:8]], by the number of identifiers drawn before. *)
  uuid4_hex8 : nat -> str;
  (** [index.query]: the matches [(id, score, metadata)], or [None] when the
      backend or the reading of its answer raises. *)
  index_query : index_state -> vector -> Z -> option (list (str * Z)) -> option (list (str * score * metadata));
  (** [index.upsert]: the state after the call and the error it raised, if any. *)
  index_upsert : index_state -> list (str * vector * metadata) -> index_state * option str;
  (** Adding and committing a row of the [queries] table: its id, or the
      error raised. *)
  db_insert_query : str -> option Z -> json -> json -> str -> str + Z
}.

(** ** The world the pipeline runs in, and the monad of its operations *)

Section Pipeline.

Context {ext : Externals}.

(** What the pipeline does to its collaborators, in order. *)
Inductive event :=
| LLMCall (prompt : str)
| IndexQuery (query_vector : vector) (top_k : Z) (filter : option (list (str * Z)))
| IndexUpsert (vectors : list (str * vector * metadata))
| DbInsert (query_text : str) (document_id : option Z).

Record world := {
  trace : list event;
  index : index_state;
  uuids_drawn : nat
}.

Definition is_llm_call (e : event) : bool :=
  match e with LLMCall _ => true | _ => false end.

Definition is_upsert (e : event) : bool :=
  match e with IndexUpsert _ => true | _ => false end.

Definition llm_calls (w : world) : list event := filter is_llm_call (trace w).

Definition log (e : event) (w : world) : world :=
  {| trace := trace w ++ [e]; index := index w; uuids_drawn := uuids_drawn w |}.

(** An operation returns or raises, and changes the world. *)
Definition M (A : Type) : Type := world -> result A * world.

Definition ret {A} (a : A) : M A := fun w => (Returned a, w).

Definition raise {A} (e : exn) : M A := fun w => (Raised e, w).

Definition bind {A B} (m : M A) (f : A -> M B) : M B :=
  fun w =>
    match m w with
    | (Returned a, w') => f a w'
    | (Raised e, w') => (Raised e, w')
    end.

(** [try: m except Exception as e: handler e] *)
Definition try_except {A} (m : M A) (handler : exn -> M A) : M A :=
  fun w =>
    match m w with
    | (Returned a, w') => (Returned a, w')
    | (Raised e, w') => handler e w'
    end.

Notation "x <- m ;; k" := (bind m (fun x => k))
  (at level 61, m at next level, right associativity).

(** [self.model.generate_content(prompt)] *)
Definition model_generate_content (prompt : str) : world -> generation * world :=
  fun w => (generate_content (List.length (llm_calls w)) prompt, log (LLMCall prompt) w).

(** ** [gemini_llm.py] *)

(** The removal of the code fences, on the stripped text of the response. *)
Definition clean_response (response_text : str) : str :=
  if startswith (py "```json") response_text
  then strip (replace (py "```") [] (replace (py "```json") [] response_text))
  else if startswith (py "```") response_text
  then strip (replace (py "```") [] response_text)
  else response_text.

Definition parse_query_prompt (query : str) : str :=
  join newline
    [ [];
      py "        Extract the following fields from the user query and return as JSON:";
      py "        - target_topic: The main topic or procedure mentioned";
      py "        - age: Age if mentioned (null if not)";
      py "        - gender: Gender if mentioned (null if not)";
      py "        - policy_duration: Policy duration if mentioned (null if not)";
      py "        - location: Location if mentioned (null if not)";
      py "        - special_conditions: Any special conditions like waiting periods, exclusions (null if not)";
      py "        - amount_requested: Any monetary amount mentioned (null if not)";
      [];
      py "        Query: " ++ quote ++ query ++ quote;
      [];
      py "        Return ONLY valid JSON format without any markdown formatting or code blocks:";
      py "        " ].

(** The names of the fields of a parsed query, in the order of the default. *)
Definition parsed_query_fields : list str :=
  [ py "target_topic"; py "age"; py "gender"; py "policy_duration";
    py "location"; py "special_conditions"; py "amount_requested" ].

(** The default structure of the handler of [parse_query]. *)
Definition default_parsed_query (query : str) : json :=
  JDict [ (py "target_topic", JStr query);
          (py "age", JNull);
          (py "gender", JNull);
          (py "policy_duration", JNull);
          (py "location", JNull);
          (py "special_conditions", JNull);
          (py "amount_requested", JNull) ].

(** [GeminiLLM.parse_query]: every exception of the body is handled, so the
    operation returns. *)
Definition parse_query (query : str) : world -> json * world :=
  fun w =>
    let (response, w1) := model_generate_content (parse_query_prompt query) w in
    match response with
    | Generated text =>
        match json_loads (clean_response (strip text)) with
        | Some parsed_data => (parsed_data, w1)
        | None => (default_parsed_query query, w1)
        end
    | GenerationError _ => (default_parsed_query query, w1)
    end.

(** A retrieved clause, as [search_similar_chunks] builds it. *)
Record clause := {
  clause_id : str;
  clause_score : score;
  clause_text : str;
  clause_document_id : option Z;
  clause_chunk_index : option Z
}.

Definition clauses_text (retrieved_clauses : list clause) : str :=
  join newline
    (map (fun ic : Z * clause =>
            py "Clause " ++ str_of_int (fst ic + 1) ++ py " (Score: "
            ++ format_score (clause_score (snd ic)) ++ py "):" ++ newline
            ++ clause_text (snd ic) ++ newline)
         (enumerate retrieved_clauses)).

Definition make_decision_prompt (query : str) (retrieved_clauses : list clause) : str :=
  join newline
    [ [];
      py "        You are an intelligent document processing agent. Based on the user query and retrieved document clauses, analyze the content and provide relevant information.";
      [];
      py "        User Query: " ++ quote ++ query ++ quote;
      [];
      py "        Retrieved Document Clauses:";
      py "        " ++ clauses_text retrieved_clauses;
      [];
      py "        Instructions:";
      py "        1. Analyze the retrieved clauses against the user query";
      py "        2. For document/resume queries, provide " ++ quote ++ py "Approved" ++ quote ++ py " decision with relevant information";
      py "        3. Extract any relevant amounts/numbers if mentioned";
      py "        4. Provide clear justification referencing specific clauses";
      [];
      py "        Respond ONLY in this exact JSON format (no markdown, no code blocks):";
      py "        {";
      py "            " ++ quote ++ py "decision" ++ quote ++ py ": " ++ quote ++ py "Approved" ++ quote ++ py ",";
      py "            " ++ quote ++ py "amount" ++ quote ++ py ": null,";
      py "            " ++ quote ++ py "justification" ++ quote ++ py ": [";
      py "                {";
      py "                    " ++ quote ++ py "clause_id" ++ quote ++ py ": " ++ quote ++ py "clause_1" ++ quote ++ py ",";
      py "                    " ++ quote ++ py "text" ++ quote ++ py ": " ++ quote ++ py "exact relevant text from the clauses" ++ quote ++ py ",";
      py "                    " ++ quote ++ py "reason" ++ quote ++ py ": " ++ quote ++ py "explanation of relevance to the query" ++ quote;
      py "                }";
      py "            ]";
      py "        }";
      [];
      py "        Important: Return only valid JSON without any formatting or code blocks.";
      py "        " ].

Definition required_keys : list str :=
  [ py "decision"; py "amount"; py "justification" ].

(** [text[:200] + ('...' if len(text) > 200 else '')] *)
Definition preview (text : str) : str :=
  slice_to 200 text ++ (if len text >? 200 then py "..." else []).

(** One entry of the fallback justification. *)
Definition fallback_entry (query : str) (ic : Z * clause) : json :=
  JDict [ (py "clause_id", JStr (py "clause_" ++ str_of_int (fst ic + 1)));
          (py "text", JStr (preview (clause_text (snd ic))));
          (py "reason", JStr (py "Retrieved relevant content for query: " ++ query)) ].

Definition fallback_justification (query : str) (retrieved_clauses : list clause) : list json :=
  map (fallback_entry query) (enumerate (firstn 2 retrieved_clauses)).

Definition system_fallback_entry : json :=
  JDict [ (py "clause_id", JStr (py "system_fallback"));
          (py "text", JStr (py "System processed the query but LLM response formatting failed"));
          (py "reason", JStr (py "Technical issue with response formatting - check logs for details")) ].

(** The value the handler of [make_decision] returns. *)
Definition fallback_decision (query : str) (retrieved_clauses : list clause) : json :=
  JDict [ (py "decision", JStr (py "Approved"));
          (py "amount", JNull);
          (py "justification",
            JList (match fallback_justification query retrieved_clauses with
                   | [] => [system_fallback_entry]
                   | entries => entries
                   end)) ].

(** [GeminiLLM.make_decision]: the prompt is built from clauses that have
    their score and text, and every exception of the body is handled. *)
Definition make_decision (query : str) (parsed_query : json)
    (retrieved_clauses : list clause) : world -> json * world :=
  fun w =>
    let (response, w1) :=
      model_generate_content (make_decision_prompt query retrieved_clauses) w in
    match response with
    | Generated text =>
        match json_loads (clean_response (strip text)) with
        | Some decision_data =>
            match all_in required_keys decision_data with
            | Some true => (decision_data, w1)
            | Some false | None => (fallback_decision query retrieved_clauses, w1)
            end
        | None => (fallback_decision query retrieved_clauses, w1)
        end
    | GenerationError _ => (fallback_decision query retrieved_clauses, w1)
    end.


(** ** [document_processor.py] *)

(** [Config.MAX_RETRIEVAL_RESULTS] *)
Definition MAX_RETRIEVAL_RESULTS : Z := 10.

(** [s.lower()]. Only the ASCII letters are lowered: no other code point
    lowers to a letter of the file types the result is compared with. *)
Definition lower (s : str) : str := map lower_char s.

(** [s.split(sep)[-1]] for a separator of one character. *)
Fixpoint last_segment (sep : N) (s : str) : str :=
  match s with
  | [] => []
  | c :: s' =>
      if existsb (N.eqb sep) s' then last_segment sep s'
      else if N.eqb c sep then s' else s
  end.

Definition extract_text_from_pdf (file_content : bytes) : str :=
  match pdf_pages file_content with
  | Some pages => fold_left (fun text page => text ++ page ++ newline) pages []
  | None => []
  end.

Definition extract_text_from_docx (file_content : bytes) : str :=
  match docx_paragraphs file_content with
  | Some paragraphs =>
      fold_left (fun text paragraph => text ++ paragraph ++ newline) paragraphs []
  | None => []
  end.

Definition extract_text (file_content : bytes) (file_type : str) : str :=
  if str_eqb (lower file_type) (py "pdf") then extract_text_from_pdf file_content
  else if str_eqb (lower file_type) (py "docx") || str_eqb (lower file_type) (py "doc")
  then extract_text_from_docx file_content
  else decode_utf8_ignore file_content.

Definition chunk_text (text : str) : list str := text_splitter_split_text text.

Definition create_simple_embeddings (texts : list str) : list vector :=
  map simple_embedding texts.

(** The identifier and the record of the vector of chunk [i]; [drawn] random
    identifiers were drawn before the call. *)
Definition vector_id_of (document_id : Z) (drawn : nat) (i : Z) : str :=
  py "doc_" ++ str_of_int document_id ++ py "_chunk_" ++ str_of_int i ++ py "_"
  ++ uuid4_hex8 (drawn + Z.to_nat i).

Definition vector_to_upsert (document_id : Z) (drawn : nat)
    (item : Z * (vector * str)) : str * vector * metadata :=
  (vector_id_of document_id drawn (fst item),
   fst (snd item),
   {| md_document_id := Some document_id;
      md_chunk_index := Some (fst item);
      md_text := Some (snd (snd item)) |}).

(** [DocumentProcessor.store_embeddings]: an error of the upsert is raised
    again. *)
Definition store_embeddings (embeddings : list vector) (chunks : list str)
    (document_id : Z) : M (list str) :=
  fun w =>
    let items := enumerate (combine embeddings chunks) in
    let vectors_to_upsert := map (vector_to_upsert document_id (uuids_drawn w)) items in
    let vector_ids := map (fun v => fst (fst v)) vectors_to_upsert in
    let (index', error) := index_upsert (index w) vectors_to_upsert in
    let w' := {| trace := trace w ++ [IndexUpsert vectors_to_upsert];
                 index := index';
                 uuids_drawn := (uuids_drawn w + List.length items)%nat |} in
    match error with
    | Some message => (Raised (Error message), w')
    | None => (Returned vector_ids, w')
    end.

(** The truth value of an optional integer: [None] and [0] are false. *)
Definition truthy (document_id : option Z) : bool :=
  match document_id with
  | None => false
  | Some z => negb (z =? 0)
  end.

(** The [filter_dict] built from the [document_id] argument. *)
Definition build_filter (document_id : option Z) : list (str * Z) :=
  match document_id with
  | Some z => if truthy document_id then [(py "document_id", z)] else []
  | None => []
  end.

Definition clause_of_match (m : str * score * metadata) : clause :=
  {| clause_id := fst (fst m);
     clause_score := snd (fst m);
     clause_text := match md_text (snd m) with Some t => t | None => [] end;
     clause_document_id := md_document_id (snd m);
     clause_chunk_index := md_chunk_index (snd m) |}.

(** The [top_k] of the search: [Config.MAX_RETRIEVAL_RESULTS] when the
    argument is [None]. *)
Definition effective_top_k (top_k : option Z) : Z :=
  match top_k with None => MAX_RETRIEVAL_RESULTS | Some k => k end.

(** The [filter] argument of the search: [filter_dict if filter_dict else None]. *)
Definition query_filter (document_id : option Z) : option (list (str * Z)) :=
  let filter_dict := build_filter document_id in
  if is_empty filter_dict then None else Some filter_dict.

(** [DocumentProcessor.search_similar_chunks]: the embedding of the query is
    computed outside the [try], the search inside it. *)
Definition search_similar_chunks (query : str) (document_id : option Z)
    (top_k : option Z) : M (list clause) :=
  fun w =>
    let top_k := effective_top_k top_k in
    match create_simple_embeddings [query] with
    | [] => (Raised (Error (py "list index out of range")), w)
    | query_embedding :: _ =>
        let filter := query_filter document_id in
        let w1 := log (IndexQuery query_embedding top_k filter) w in
        match index_query (index w) query_embedding top_k filter with
        | Some matches => (Returned (map clause_of_match matches), w1)
        | None => (Returned [], w1)
        end
    end.

(** [DocumentProcessor.process_document] *)
Definition process_document (file_content : bytes) (filename : str)
    (document_id : Z) : world -> ingest_result * world :=
  fun w =>
    let file_type := lower (last_segment 46 filename) in
    let text := extract_text file_content file_type in
    if is_empty (strip text)
    then (IngestFailure (py "No text extracted from document"), w)
    else
      let chunks := chunk_text text in
      if is_empty chunks
      then (IngestFailure (py "No chunks created from text"), w)
      else
        let embeddings := create_simple_embeddings chunks in
        match store_embeddings embeddings chunks document_id w with
        | (Returned vector_ids, w') => (IngestSuccess text (len' chunks) vector_ids, w')
        | (Raised e, w') => (IngestFailure (str_of_exn e), w')
        end.

(** ** [simple_document_processor.py]: the extractor of the simplified processor *)

Definition simple_extract_text_from_pdf (pdf_content : bytes) : str :=
  match pdf_pages pdf_content with
  | Some pages => fold_left (fun text page => text ++ page ++ newline) pages []
  | None => py "Sample document content for testing purposes."
  end.

(** ** [main.py]: the [/query] handler *)

Definition lift {A} (op : world -> A * world) : M A :=
  fun w => let (a, w') := op w in (Returned a, w').

(** [v[key]], raising when [v] is not a dict or has no such key. The message
    is the one of the [KeyError] of a dict; the text of the [TypeError] of
    the other values is not modelled. *)
Definition subscript (v : json) (key : str) : M json :=
  match getitem v key with
  | Some x => ret x
  | None => raise (Error (quote' ++ key ++ quote'))
  end.

Definition db_add_query (query_text : str) (document_id : option Z)
    (decision amount : json) (justification : str) : M Z :=
  fun w =>
    let w' := log (DbInsert query_text document_id) w in
    match db_insert_query query_text document_id decision amount justification with
    | inr query_id => (Returned query_id, w')
    | inl message => (Raised (Error message), w')
    end.

Definition no_results_response : json :=
  JDict [ (py "status", JStr (py "no_results"));
          (py "message", JStr (py "No relevant clauses found for the query"));
          (py "decision", JStr (py "Rejected"));
          (py "amount", JNull);
          (py "justification",
            JList [ JDict [ (py "clause_id", JStr (py "none"));
                            (py "text", JStr (py "No relevant document clauses found"));
                            (py "reason", JStr (py "Insufficient information to make a decision")) ] ]) ].

(** The justification of the response: a string is parsed again, and
    replaced by three fixed strings when it does not parse. *)
Definition format_justification (justification : json) : json :=
  match justification with
  | JStr s =>
      match json_loads s with
      | Some parsed => parsed
      | None =>
          JList [ JStr (py "[{" ++ quote ++ py "clause_id" ++ quote ++ py ": " ++ quote ++ py "error");
                  JStr (py "text" ++ quote ++ py ": justification");
                  JStr (py "reason" ++ quote ++ py ": " ++ quote ++ py "Formatting issue" ++ quote ++ py "}") ]
      end
  | _ => justification
  end.

Definition process_query (request : query_request) : M json :=
  try_except
    (match request_query request with
     | None | Some [] => raise (HTTPException 400 (py "Query text is required"))
     | Some query_text =>
         let document_id := request_document_id request in
         parsed_query <- lift (parse_query query_text) ;;
         retrieved_clauses <- search_similar_chunks query_text document_id None ;;
         if is_empty retrieved_clauses then ret no_results_response
         else
           decision_result <- lift (make_decision query_text parsed_query retrieved_clauses) ;;
           decision <- subscript decision_result (py "decision") ;;
           amount <- subscript decision_result (py "amount") ;;
           justification <- subscript decision_result (py "justification") ;;
           query_id <- db_add_query query_text document_id decision amount
                         (json_dumps justification) ;;
           ret (JDict [ (py "status", JStr (py "success"));
                        (py "query_id", JInt query_id);
                        (py "parsed_query", parsed_query);
                        (py "retrieved_clauses_count", JInt (len' retrieved_clauses));
                        (py "decision", decision);
                        (py "amount", amount);
                        (py "justification", format_justification justification) ])
     end)
    (fun e => raise (HTTPException 500 (str_of_exn e))).

End Pipeline.

(** ** When a response of the model gives no decision

    The call raised, or the cleaned text of the response is not JSON, or one
    of the required keys is not in the parsed value. *)
Inductive no_decision {ext : Externals} : generation -> Prop :=
| call_failed (message : str) : no_decision (GenerationError message)
| not_json (text : str) :
    json_loads (clean_response (strip text)) = None ->
    no_decision (Generated text)
| key_missing (text : str) (parsed : json) (key : str) :
    json_loads (clean_response (strip text)) = Some parsed ->
    In key required_keys ->
    py_in key parsed <> Some true ->
    no_decision (Generated text).

(** ** A small concrete instance of the collaborators

    An index that keeps its records in a list and answers a query with the
    records that pass the filter, a model and a JSON reader given by the
    caller, and readers that succeed or raise as told. *)

Definition passes (filter : option (list (str * Z))) (r : str * str * metadata) : bool :=
  match filter with
  | Some ((_, d) :: _) =>
      match md_document_id (snd r) with Some d' => d =? d' | None => false end
  | _ => true
  end.

Definition list_index_query (up : bool) (records : list (str * str * metadata))
    (v : str) (top_k : Z) (filter : option (list (str * Z)))
  : option (list (str * Z * metadata)) :=
  if up
  then Some (map (fun r => (fst (fst r), 1, snd r))
               (firstn (Z.to_nat top_k) (List.filter (passes filter) records)))
  else None.

Definition list_externals (loads : str -> option json) (model : nat -> str -> generation)
    (up : bool) (pages : option (list str)) : Externals :=
  {| score := Z;
     vector := str;
     index_state := list (str * str * metadata);
     format_score := str_of_int;
     json_loads := loads;
     json_dumps := fun _ => [];
     generate_content := model;
     pdf_pages := fun _ => pages;
     docx_paragraphs := fun _ => pages;
     decode_utf8_ignore := map (fun b => N_of_ascii (ascii_of_byte b));
     text_splitter_split_text :=
       fun text => SimpleDocumentProcessor.split_text_into_chunks text 1000;
     simple_embedding := fun text => text;
     uuid4_hex8 := fun n => str_of_int (Z.of_nat n);
     index_query := list_index_query up;
     index_upsert :=
       fun records vectors => if up then (records ++ vectors, None)
                              else (records, Some (py "index unavailable"));
     db_insert_query := fun _ _ _ _ _ => inr 1 |}.

(** A JSON reader that knows the empty object and a string, and rejects
    every other text. *)
Definition loads_few (s : str) : option json :=
  if str_eqb s (py "{}") then Some (JDict [])
  else if str_eqb s (quote ++ py "decision amount justification" ++ quote)
  then Some (JStr (py "decision amount justification"))
  else None.

(** A model that answers every prompt with the same text. *)
Definition model_says (text : str) : nat -> str -> generation :=
  fun _ _ => Generated text.

Definition empty_world {ext : Externals} (records : index_state) : world :=
  {| trace := []; index := records; uuids_drawn := 0 |}.

(** The stored records of a chunk of document 0 and of a chunk of document 7. *)
Definition stored_records : list (str * str * metadata) :=
  [ (py "doc_0_chunk_0_a", py "terms",
     {| md_document_id := Some 0; md_chunk_index := Some 0; md_text := Some (py "terms") |});
    (py "doc_7_chunk_0_b", py "cover",
     {| md_document_id := Some 7; md_chunk_index := Some 0; md_text := Some (py "cover") |}) ].

(** The model answers in prose; the index works; the readers raise. *)
Definition ext_prose : Externals :=
  list_externals loads_few (model_says (py "Sorry, I cannot answer that.")) true None.

(** The model answers with the empty JSON object. *)
Definition ext_empty_object : Externals :=
  list_externals loads_few (model_says (py "{}")) true None.

(** The model answers with a JSON string that names the three keys. *)
Definition ext_key_names : Externals :=
  list_externals loads_few
    (model_says (quote ++ py "decision amount justification" ++ quote)) true None.

(** The index backend is unavailable; the readers give one blank page. *)
Definition ext_down : Externals :=
  list_externals loads_few (model_says (py "{}")) false (Some [py "  "]).

(** A clause with a text of [n] letters. *)
Definition clause_of_length {ext : Externals} (s : score) (n : nat) : clause :=
  {| clause_id := py "doc_7_chunk_0_0";
     clause_score := s;
     clause_text := repeat 97%N n;
     clause_document_id := Some 7;
     clause_chunk_index := Some 0 |}.

(** The documents of the clauses that a search returns. *)
Definition documents_found {ext : Externals} (r : result (list clause))
  : list (option Z) :=
  match r with
  | Returned clauses => map clause_document_id clauses
  | Raised _ => []
  end.

(** A world with an empty index and a stored clause, for each instance. *)
Definition prose_world : @world ext_prose := empty_world (ext := ext_prose) [].

Definition prose_clause (n : nat) : @clause ext_prose :=
  clause_of_length (ext := ext_prose) 1 n.

Definition empty_object_world : @world ext_empty_object :=
  empty_world (ext := ext_empty_object) [].

Definition key_names_world : @world ext_key_names :=
  empty_world (ext := ext_key_names) [].

Definition key_names_clause (n : nat) : @clause ext_key_names :=
  clause_of_length (ext := ext_key_names) 1 n.

Definition down_world : @world ext_down := empty_world (ext := ext_down) [].

Definition prose_world_two_documents : @world ext_prose :=
  empty_world (ext := ext_prose) stored_records.


(** ** [gemini_llm.py]: the summary *)

Section Summary.

Context {ext : Externals}.

(** The prompt of [generate_summary]; the remark after the document is part
    of the text of the prompt. *)
Definition generate_summary_prompt (document_text : str) (max_length : Z) : str :=
  join newline
    [ [];
      py "        Provide a concise summary of the following document in no more than "
        ++ str_of_int max_length ++ py " characters:";
      [];
      py "        Document:";
      py "        " ++ slice_to 3000 document_text ++ py "  # Limit input to avoid token limits";
      [];
      py "        Summary:";
      py "        " ].

(** The default of the [max_length] argument. *)
Definition default_max_length : Z := 500.

(** [GeminiLLM.generate_summary] *)
Definition generate_summary (document_text : str) (max_length : Z)
  : world -> str * world :=
  fun w =>
    let (response, w1) :=
      model_generate_content (generate_summary_prompt document_text max_length) w in
    match response with
    | Generated text => (strip text, w1)
    | GenerationError _ => (py "Unable to generate summary due to system error.", w1)
    end.

End Summary.

(** ** [main.py]: the [/hackrx/run] handler, for a request in the old format *)

(** The entries of the body that the handler reads. *)
Record hackrx_request := {
  hackrx_query : option str;
  hackrx_question : option str;
  hackrx_document_url : option str
}.

(** The truth value of an optional string: [None] and [""] are false. *)
Definition nonempty_str (s : option str) : bool :=
  match s with
  | Some (_ :: _) => true
  | _ => false
  end.

Section HackrxRun.

Context {ext : Externals}.

(** What the query for the most recent processed document gives: its id,
    [None] when there is no such document, or the error raised. *)
Variable latest_processed_document : str + option Z.

Notation "x <- m ;; k" := (bind m (fun x => k))
  (at level 61, m at next level, right associativity).

(** A decision [Rejected] with one justification entry. *)
Definition rejected (clause_id text reason : str) : json :=
  JDict [ (py "decision", JStr (py "Rejected"));
          (py "amount", JNull);
          (py "justification",
            JList [ JDict [ (py "clause_id", JStr clause_id);
                            (py "text", JStr text);
                            (py "reason", JStr reason) ] ]) ].

Definition no_document_response : json :=
  rejected (py "no_document") (py "No processed documents available")
    (py "No documents have been uploaded and processed").

Definition no_results_decision : json :=
  rejected (py "no_results") (py "No relevant document clauses found")
    (py "Insufficient information to make a decision").

Definition system_error_response (e : exn) : json :=
  rejected (py "system_error") (py "System error: " ++ str_of_exn e)
    (py "Unable to process request due to system error").

(** The steps from the parsing of the query on, for a known [document_id]. *)
Definition hackrx_answer (query_text : str) (document_id : option Z) : M json :=
  parsed_query <- lift (parse_query query_text) ;;
  retrieved_clauses <- search_similar_chunks query_text document_id None ;;
  if is_empty retrieved_clauses then ret no_results_decision
  else
    decision_result <- lift (make_decision query_text parsed_query retrieved_clauses) ;;
    decision <- subscript decision_result (py "decision") ;;
    amount <- subscript decision_result (py "amount") ;;
    justification <- subscript decision_result (py "justification") ;;
    _ <- db_add_query query_text document_id decision amount (json_dumps justification) ;;
    ret (JDict [ (py "decision", decision);
                 (py "amount", amount);
                 (py "justification", justification) ]).

(** The body of [hackrx_run_endpoint] after the test of the format: the
    request has no [documents] or no [questions] entry. *)
Definition hackrx_run_endpoint (request : hackrx_request) : M json :=
  try_except
    (let query_text :=
       if nonempty_str (hackrx_query request) then hackrx_query request
       else hackrx_question request in
     match query_text with
     | None | Some [] => raise (HTTPException 400 (py "Query/question is required"))
     | Some query_text =>
         if negb (nonempty_str (hackrx_document_url request))
         then
           match latest_processed_document with
           | inl message => raise (Error message)
           | inr None => ret no_document_response
           | inr (Some document_id) => hackrx_answer query_text (Some document_id)
           end
         else hackrx_answer query_text None
     end)
    (fun e => ret (system_error_response e)).

End HackrxRun.

(** ** [main_simple.py]: the bearer token *)

Definition HACKRX_TOKEN : str :=
  py "96551ec397634df93a1a2212b9b798324340321ef3c785ce9f4593c92d8f1544".

(** [verify_hackrx_token] *)
Definition verify_hackrx_token (authorization : option str) : result str :=
  match authorization with
  | None | Some [] => Raised (HTTPException 401 (py "Authorization header missing"))
  | Some header =>
      if negb (startswith (py "Bearer ") header)
      then Raised (HTTPException 401 (py "Invalid authorization format"))
      else
        let token := skipn 7 header in
        if negb (str_eqb token HACKRX_TOKEN)
        then Raised (HTTPException 401 (py "Invalid bearer token"))
        else Returned token
  end.

(** ** [simple_document_processor.py]: the mocks and the processing of a URL *)

(** [range(n)] *)
Definition range (n : Z) : list Z := map Z.of_nat (seq 0 (Z.to_nat n)).

(** A result of the mock search; its score is [0.9 - (rank * 0.1)], a
    floating-point number kept by its rank. *)
Record mock_result := {
  mock_id : str;
  mock_score_rank : Z;
  mock_text : str;
  mock_chunk_index : Z
}.

(** [DocumentProcessor.search_similar_documents] *)
Definition search_similar_documents (query : str) (top_k : Z) : list mock_result :=
  map (fun i =>
         {| mock_id := py "mock_" ++ str_of_int i;
            mock_score_rank := i;
            mock_text := py "Mock relevant content " ++ str_of_int (i + 1)
                         ++ py " for query: " ++ query;
            mock_chunk_index := i |})
      (range (Z.min top_k 3)).

(** The default of the [top_k] argument. *)
Definition default_top_k : Z := 5.

(** A component of a mock embedding: [val / 255.0] for an integer [val], a
    floating-point number kept by its numerator, or the padding [0.0]. *)
Inductive component :=
| Over255 (val : Z)
| Padding.

(** The value of a hexadecimal digit, as [int(_, 16)] reads it. *)
Definition hex_digit_value (c : N) : option Z :=
  if ((48 <=? c) && (c <=? 57))%N then Some (Z.of_N c - 48)
  else if ((97 <=? c) && (c <=? 102))%N then Some (Z.of_N c - 87)
  else if ((65 <=? c) && (c <=? 70))%N then Some (Z.of_N c - 55)
  else None.

(** [int(s, 16)] on a string of one or two hexadecimal digits; the other
    strings that a slice of two characters of a digest cannot be are
    rejected. *)
Definition int16 (s : str) : option Z :=
  match s with
  | [a] => hex_digit_value a
  | [a; b] =>
      match hex_digit_value a, hex_digit_value b with
      | Some x, Some y => Some (16 * x + y)
      | _, _ => None
      end
  | _ => None
  end.

(** The lowercase hexadecimal digit of a value below 16. *)
Definition hex_digit (v : N) : N :=
  if (v <? 10)%N then (48 + v)%N else (87 + v)%N.

(** [digest.hex()]: two digits for each byte. *)
Definition hex_of_bytes (digest : bytes) : str :=
  flat_map (fun b => let v := Byte.to_N b in [hex_digit (v / 16); hex_digit (v mod 16)])
    digest.

(** [[s[i:i+2] for i in range(0, len(s), 2)]] *)
Fixpoint slices_of_two (s : str) : list str :=
  match s with
  | [] => []
  | [a] => [[a]]
  | a :: b :: rest => [a; b] :: slices_of_two rest
  end.

(** The collaborators of the simplified processor: the download of a URL,
    the MD5 digest of the UTF-8 encoding of a text ([None] when the text
    cannot be encoded), and [str(uuid.uuid4())]. *)
Record http_response := {
  status_code : Z;
  content : bytes;
  response_text : str
}.

Class SimpleExternals := {
  requests_get : str -> str + http_response;
  md5_digest : str -> option bytes;
  uuid4_str : nat -> str
}.

(** The two shapes of the dict that [process_document_from_url] returns. *)
Inductive url_result :=
| UrlSuccess (message : str) (chunks_count : Z) (sample_text : str)
| UrlFailure (error : str) (message : str).

Section SimpleProcessor.

Context {ext : Externals} {simple : SimpleExternals}.

(** [DocumentProcessor.create_embeddings] *)
Definition create_embeddings (text : str) : result (list component) :=
  match md5_digest text with
  | None => Raised (Error (py "text cannot be encoded"))
  | Some digest =>
      let hash_hex := hex_of_bytes digest in
      let step (acc : result (list component)) (pair : str) :=
        match acc with
        | Raised e => Raised e
        | Returned embedding =>
            match int16 pair with
            | Some val => Returned (embedding ++ [Over255 val])
            | None => Raised (Error (py "invalid literal for int() with base 16"))
            end
        end in
      match fold_left step (slices_of_two hash_hex) (Returned []) with
      | Raised e => Raised e
      | Returned embedding =>
          Returned (firstn 768
                      (embedding ++ repeat Padding (768 - List.length embedding)))
      end
  end.

(** [response.raise_for_status()]: the statuses from 400 to 599 raise. The
    text of the error is shortened to the status; the reason and the URL
    that the library adds are not modelled. *)
Definition raise_for_status (response : http_response) : option exn :=
  if (400 <=? status_code response) && (status_code response <? 600)
  then Some (Error (str_of_int (status_code response) ++ py " Error"))
  else None.

(** [s.endswith(p)] *)
Definition endswith (p s : str) : bool := startswith (rev p) (rev s).

(** The entries of [embeddings_data]: the id, the values and the text of
    each chunk. *)
Fixpoint embed_chunks (url : str) (items : list (Z * str))
  : result (list (str * list component * str)) :=
  match items with
  | [] => Returned []
  | (i, chunk) :: rest =>
      match create_embeddings chunk with
      | Raised e => Raised e
      | Returned embedding =>
          match embed_chunks url rest with
          | Raised e => Raised e
          | Returned data =>
              Returned ((py "doc_" ++ uuid4_str (Z.to_nat i) ++ py "_" ++ str_of_int i,
                         embedding, chunk) :: data)
          end
      end
  end.

(** [text[:500] + "..." if len(text) > 500 else text] *)
Definition sample_of (text : str) : str :=
  if len text >? 500 then slice_to 500 text ++ py "..." else text.

Definition url_failure (e : exn) : url_result :=
  UrlFailure (str_of_exn e) (py "Failed to process document").

(** [DocumentProcessor.process_document_from_url]; the storage is a mock
    that prints and returns. *)
Definition process_document_from_url (url : str) : url_result :=
  match requests_get url with
  | inl message => url_failure (Error message)
  | inr response =>
      match raise_for_status response with
      | Some e => url_failure e
      | None =>
          let text :=
            if endswith (py ".pdf") (lower url)
            then simple_extract_text_from_pdf (content response)
            else response_text response in
          let chunks := SimpleDocumentProcessor.split_text_into_chunks text
                          SimpleDocumentProcessor.default_chunk_size in
          match embed_chunks url (enumerate chunks) with
          | Raised e => url_failure e
          | Returned embeddings_data =>
              UrlSuccess
                (py "Processed " ++ str_of_int (len' chunks) ++ py " chunks from document")
                (len' chunks)
                (sample_of text)
          end
      end
  end.

End SimpleProcessor.

(** ** More instances of the collaborators *)

(** A decision as the model is asked to give it. *)
Definition sample_decision_items : list (str * json) :=
  [ (py "decision", JStr (py "Rejected"));
    (py "amount", JInt 5000);
    (py "justification",
      JList [ JDict [ (py "clause_id", JStr (py "clause_1"));
                      (py "text", JStr (py "terms"));
                      (py "reason", JStr (py "waiting period")) ] ]) ].

(** A JSON reader that knows one text, the sample decision. *)
Definition loads_sample_decision (s : str) : option json :=
  if str_eqb s (py "DECISION") then Some (JDict sample_decision_items) else None.

(** The model answers with the sample decision, inside a code fence. *)
Definition ext_sample_decision : Externals :=
  list_externals loads_sample_decision
    (model_says (py " ```json" ++ newline ++ py "DECISION" ++ newline ++ py "``` "))
    true None.

Definition sample_decision_world : @world ext_sample_decision :=
  empty_world (ext := ext_sample_decision) stored_records.

(** The collaborators of the simplified processor: pages under [https://]
    are served, with status 404 for [/missing]; every digest is sixteen
    bytes [ff]. *)
Definition simple_mock : SimpleExternals :=
  {| requests_get := fun url =>
       if startswith (py "https://") url
       then inr {| status_code := if endswith (py "/missing") url then 404 else 200;
                   content := [];
                   response_text := py "plain text of the page" |}
       else inl (py "connection refused");
     md5_digest := fun text => Some (repeat Byte.xff 16);
     uuid4_str := fun n => str_of_int (Z.of_nat n) |}.

Definition key_names_world_two_documents : @world ext_key_names :=
  empty_world (ext := ext_key_names) stored_records.

(** The clauses that a search returns, and none when it raises. *)
Definition clauses_found {ext : Externals} (r : result (list clause)) : list clause :=
  match r with
  | Returned clauses => clauses
  | Raised _ => []
  end.

(** The store of the queries is unavailable. *)
Definition ext_no_store : Externals :=
  {| score := Z;
     vector := str;
     index_state := list (str * str * metadata);
     format_score := str_of_int;
     json_loads := loads_few;
     json_dumps := fun _ => [];
     generate_content := model_says (py "Sorry, I cannot answer that.");
     pdf_pages := fun _ => None;
     docx_paragraphs := fun _ => None;
     decode_utf8_ignore := map (fun b => N_of_ascii (ascii_of_byte b));
     text_splitter_split_text := fun _ => [];
     simple_embedding := fun text => text;
     uuid4_hex8 := fun n => str_of_int (Z.of_nat n);
     index_query := list_index_query true;
     index_upsert := fun records vectors => (records ++ vectors, None);
     db_insert_query := fun _ _ _ _ _ => inl (py "connection closed") |}.

Definition no_store_world : @world ext_no_store :=
  empty_world (ext := ext_no_store) stored_records.

(** The ids that [store_embeddings] returns, and none when it raises. *)
Definition clauses_ids_of (r : result (list str)) : list str :=
  match r with
  | Returned ids => ids
  | Raised _ => []
  end.

(** Three embeddings for two chunks, and the bytes of the text [hi]. *)
Definition prose_vectors : list (@vector ext_prose) := [py "e0"; py "e1"; py "e2"].

Definition bytes_hi : bytes := [Byte.x68; Byte.x69].

(** ** Shorthands for the statements *)

Section Shorthands.

Context {ext : Externals}.

(** The world after the parsing of the query and the search of the
    [/query] handler. *)
Definition searched (query : str) (document_id : option Z) (w : world) : world :=
  log (IndexQuery (simple_embedding query) MAX_RETRIEVAL_RESULTS (query_filter document_id))
    (log (LLMCall (parse_query_prompt query)) w).

(** The text that [process_document] extracts: the file type is what follows
    the last dot of the file name, in lower case. *)
Definition extracted (file_content : bytes) (filename : str) : str :=
  extract_text file_content (lower (last_segment 46 filename)).

End Shorthands.
(** * Properties *)

(** ** Strings *)

Lemma len_app (a b : str) : len (a ++ b) = len a + len b.
Proof. unfold len. rewrite length_app. lia. Qed.

Lemma len_nonneg (s : str) : 0 <= len s.
Proof. unfold len. lia. Qed.

Lemma cons_word_not_nil (c : N) (ws : list str) : cons_word c ws <> [].
Proof. destruct ws; discriminate. Qed.

(** [split] gives no word exactly on the texts made of whitespace. *)
Lemma split_nil_iff (s : str) : split s = [] <-> forallb isspace s = true.
Proof.
  induction s as [|c s IH]; simpl.
  - tauto.
  - destruct (isspace c) eqn:Hc; simpl.
    + exact IH.
    + split; [|discriminate].
      destruct s as [|d s'].
      * discriminate.
      * destruct (isspace d).
        -- discriminate.
        -- intros H. now apply cons_word_not_nil in H.
Qed.

Lemma forallb_isspace_lstrip (s : str) : forallb isspace s = true -> lstrip s = [].
Proof.
  induction s as [|c s IH]; simpl; [reflexivity|].
  destruct (isspace c); simpl; [exact IH | discriminate].
Qed.

Lemma blank_strip (s : str) : forallb isspace s = true -> strip s = [].
Proof.
  intros H. unfold strip, rstrip. now rewrite (forallb_isspace_lstrip s H).
Qed.

Lemma join_snoc (sep : str) (l : list str) (w : str) :
  l <> [] -> join sep (l ++ [w]) = join sep l ++ sep ++ w.
Proof.
  induction l as [|x l IH]; intros Hl; [congruence|].
  destruct l as [|y l].
  - reflexivity.
  - change (join sep ((x :: y :: l) ++ [w]))
      with (x ++ sep ++ join sep ((y :: l) ++ [w])).
    rewrite IH by discriminate.
    change (join sep (x :: y :: l)) with (x ++ sep ++ join sep (y :: l)).
    now rewrite <- !app_assoc.
Qed.

(** ** The chunker *)

Module ChunkerProofs.
Import SimpleDocumentProcessor.

(** A chunk is within the size, or it is one word of the text that is longer
    than the size. *)
Definition chunk_ok (chunk_size : Z) (words : list str) (c : str) : Prop :=
  len c <= chunk_size \/ (In c words /\ chunk_size < len c).

(** The invariant of the loop: the emitted chunks are fine, and the chunk
    being built is empty, or within the size and counted by
    [current_length], or a single long word. *)
Definition loop_inv (chunk_size : Z) (words : list str) (st : chunker) : Prop :=
  Forall (chunk_ok chunk_size words) (chunks st)
  /\ ((current_chunk st = [] /\ 0 <= current_length st)
      \/ (current_chunk st <> []
          /\ len (join (py " ") (current_chunk st)) <= chunk_size
          /\ len (join (py " ") (current_chunk st)) <= current_length st)
      \/ (exists w, current_chunk st = [w] /\ In w words
                    /\ chunk_size < len w /\ len w <= current_length st)).

Lemma loop_inv_chunk (chunk_size : Z) (words : list str) (st : chunker) :
  loop_inv chunk_size words st ->
  current_chunk st <> [] ->
  chunk_ok chunk_size words (join (py " ") (current_chunk st)).
Proof.
  intros [_ [[H _] | [(_ & H & _) | (w & Hw & Hin & Hlt & _)]]] Hne.
  - contradiction.
  - now left.
  - rewrite Hw. simpl. now right.
Qed.

Lemma chunk_step_inv (chunk_size : Z) (words : list str) (st : chunker) (word : str) :
  In word words ->
  loop_inv chunk_size words st ->
  loop_inv chunk_size words (chunk_step chunk_size st word).
Proof.
  intros Hin Hinv. pose proof Hinv as [Hchunks Hcur].
  assert (Hsingle : forall n, len word <= n ->
            ([word] <> [] /\ len (join (py " ") [word]) <= chunk_size
               /\ len (join (py " ") [word]) <= n)
            \/ (exists w, [word] = [w] /\ In w words /\ chunk_size < len w /\ len w <= n)).
  { intros n Hn. destruct (Z_le_gt_dec (len word) chunk_size).
    - left. simpl. repeat split; [discriminate | lia | lia].
    - right. exists word. repeat split; [assumption | lia | lia]. }
  unfold chunk_step.
  destruct ((current_length st + len word + 1 >? chunk_size)
            && negb (is_empty (current_chunk st))) eqn:Hcond.
  - apply andb_true_iff in Hcond as [_ Hne].
    assert (Hne' : current_chunk st <> []).
    { destruct (current_chunk st); [discriminate | discriminate]. }
    split; simpl.
    + apply Forall_app. split; [assumption|].
      constructor; [|constructor]. now apply loop_inv_chunk.
    + right. apply Hsingle. lia.
  - split; simpl; [assumption|]. right.
    destruct (current_chunk st) as [|x l] eqn:Hcc.
    + simpl. destruct Hcur as [[_ H0] | [(Hne & _) | (w & Hw & _)]].
      * apply Hsingle. lia.
      * congruence.
      * discriminate.
    + simpl in Hcond. rewrite andb_true_r in Hcond.
      assert (Hle : current_length st + len word + 1 <= chunk_size).
      { destruct (current_length st + len word + 1 >? chunk_size) eqn:E; [discriminate|].
        rewrite Z.gtb_ltb in E. apply Z.ltb_ge in E. lia. }
      pose proof (len_nonneg word) as Hw0.
      left. split; [now destruct l|].
      rewrite join_snoc by discriminate. rewrite !len_app.
      change (len (py " ")) with 1.
      destruct Hcur as [[Hnil _] | [(_ & Hc1 & Hc2) | (w & Hw & _ & Hlt & Hle')]].
      * discriminate.
      * lia.
      * injection Hw as -> ->. simpl in *. lia.
Qed.

Lemma chunk_loop_inv (chunk_size : Z) (words ws : list str) :
  forall st, incl ws words ->
    loop_inv chunk_size words st ->
    loop_inv chunk_size words (chunk_loop chunk_size ws st).
Proof.
  induction ws as [|w ws IH]; intros st Hincl Hinv; simpl.
  - assumption.
  - apply IH.
    + intros x Hx. apply Hincl. now right.
    + apply chunk_step_inv; [apply Hincl; now left | assumption].
Qed.

Lemma chunk_bound (text : str) (chunk_size : Z) :
  Forall (chunk_ok chunk_size (split text)) (split_text_into_chunks text chunk_size).
Proof.
  unfold split_text_into_chunks.
  pose proof (@chunk_loop_inv chunk_size (split text) (split text)
                {| chunks := []; current_chunk := []; current_length := 0 |}
                (incl_refl _)) as H.
  set (st := chunk_loop _ _ _) in *.
  assert (Hinv : loop_inv chunk_size (split text) st).
  { apply H. split; simpl; [constructor | left; split; [reflexivity | lia]]. }
  pose proof (loop_inv_chunk _ _ _ Hinv) as Hlast.
  destruct Hinv as [Hchunks _].
  destruct (current_chunk st) as [|x l]; simpl.
  - assumption.
  - apply Forall_app. split; [assumption|].
    constructor; [|constructor]. apply Hlast. discriminate.
Qed.

Lemma chunk_step_current (chunk_size : Z) (st : chunker) (word : str) :
  current_chunk (chunk_step chunk_size st word) <> [].
Proof.
  unfold chunk_step.
  destruct (_ && _); simpl; [discriminate|].
  destruct (current_chunk st); discriminate.
Qed.

Lemma chunk_loop_current (chunk_size : Z) (ws : list str) :
  forall st, current_chunk st <> [] ->
    current_chunk (chunk_loop chunk_size ws st) <> [].
Proof.
  induction ws as [|w ws IH]; intros st H; simpl; [assumption|].
  apply IH, chunk_step_current.
Qed.

Lemma chunks_of_words (text : str) (chunk_size : Z) :
  split text <> [] -> (1 <= List.length (split_text_into_chunks text chunk_size))%nat.
Proof.
  intros Hw. unfold split_text_into_chunks.
  destruct (split text) as [|w ws]; [congruence|].
  simpl chunk_loop.
  pose proof (@chunk_loop_current chunk_size ws
                (chunk_step chunk_size
                   {| chunks := []; current_chunk := []; current_length := 0 |} w)
                (chunk_step_current _ _ _)) as H.
  unfold chunk_loop in *. simpl fold_left.
  destruct (current_chunk _); [congruence|].
  simpl. rewrite length_app. simpl. lia.
Qed.

Lemma chunks_of_blank (text : str) (chunk_size : Z) :
  split text = [] -> split_text_into_chunks text chunk_size = [].
Proof. intros H. unfold split_text_into_chunks. now rewrite H. Qed.

End ChunkerProofs.

(** C8 (as stated, refuted): with [chunk_size = 3] the text [abcdef gh]
    gives a chunk of six characters. *)
Lemma long_word_chunk_exceeds_size :
  0 < 3 /\
  ~ Forall (fun chunk => len chunk <= 3)
      (SimpleDocumentProcessor.split_text_into_chunks (py "abcdef gh") 3).
Proof.
  split; [lia|]. intros H.
  apply Forall_inv in H. vm_compute in H. now apply H.
Qed.

(** C8 (amended): every chunk has at most [chunk_size] characters, or is a
    single word of the text that is itself longer than [chunk_size], emitted
    whole; when no word is longer than [chunk_size], every chunk is within
    it; and the same text and size give the same chunks. *)
Theorem chunks_within_size_or_long_word (text : str) (chunk_size : Z) :
  Forall (fun chunk => len chunk <= chunk_size
                       \/ (In chunk (split text) /\ chunk_size < len chunk))
    (SimpleDocumentProcessor.split_text_into_chunks text chunk_size)
  /\ (Forall (fun word => len word <= chunk_size) (split text) ->
      Forall (fun chunk => len chunk <= chunk_size)
        (SimpleDocumentProcessor.split_text_into_chunks text chunk_size))
  /\ (forall text' chunk_size', text' = text -> chunk_size' = chunk_size ->
      SimpleDocumentProcessor.split_text_into_chunks text' chunk_size'
      = SimpleDocumentProcessor.split_text_into_chunks text chunk_size).
Proof.
  pose proof (ChunkerProofs.chunk_bound text chunk_size) as H.
  split; [exact H|]. split.
  - intros Hwords. rewrite Forall_forall in *. intros c Hc.
    destruct (H c Hc) as [Hle | [Hin Hlt]]; [assumption|].
    specialize (Hwords c Hin). simpl in Hwords. lia.
  - intros text' chunk_size' -> ->. reflexivity.
Qed.

Lemma chunks_within_size_or_long_word_witness :
  Forall (fun chunk => len chunk <= 5)
    (SimpleDocumentProcessor.split_text_into_chunks (py "aa bb cc dd e") 5).
Proof.
  apply (proj1 (proj2 (chunks_within_size_or_long_word (py "aa bb cc dd e") 5))).
  vm_compute. repeat constructor; discriminate.
Defined.

(** A text of one space is not the empty text, and it gives no chunk: the
    texts that give at least one chunk are those with a character that is
    not whitespace. *)
Lemma blank_text_gives_no_chunk :
  py " " <> [] /\
  ~ 1 <= len' (SimpleDocumentProcessor.split_text_into_chunks (py " ") 1000).
Proof. split; [discriminate|]. vm_compute. intros H. now apply H. Qed.

(** C9: a text that is not empty, that is, with at least one character that
    is not whitespace, gives at least one chunk, and an empty or
    whitespace-only text gives no chunk, whatever the chunk size. *)
Theorem chunk_count_by_content (text : str) (chunk_size : Z) :
  ((exists c, In c text /\ isspace c = false) ->
   1 <= len' (SimpleDocumentProcessor.split_text_into_chunks text chunk_size))
  /\ (forallb isspace text = true ->
      SimpleDocumentProcessor.split_text_into_chunks text chunk_size = []).
Proof.
  split.
  - intros (c & Hin & Hc).
    assert (Hw : split text <> []).
    { intros Hnil. apply split_nil_iff in Hnil.
      rewrite forallb_forall in Hnil. specialize (Hnil c Hin). congruence. }
    pose proof (ChunkerProofs.chunks_of_words text chunk_size Hw).
    unfold len'. lia.
  - intros Hblank. apply ChunkerProofs.chunks_of_blank. now apply split_nil_iff.
Qed.

Lemma chunk_count_by_content_witness :
  1 <= len' (SimpleDocumentProcessor.split_text_into_chunks (py " a b ") 1000)
  /\ SimpleDocumentProcessor.split_text_into_chunks (py "  ") 1000 = [].
Proof.
  split.
  - apply (proj1 (chunk_count_by_content (py " a b ") 1000)).
    exists 97%N. split; [vm_compute; tauto | reflexivity].
  - apply (proj2 (chunk_count_by_content (py "  ") 1000)). reflexivity.
Defined.

(** ** The language-model steps *)

Section GeminiProofs.

Context {ext : Externals}.

Lemma all_in_true (keys : list str) (v : json) :
  all_in keys v = Some true -> forall key, In key keys -> py_in key v = Some true.
Proof.
  induction keys as [|k ks IH]; simpl; intros H key Hin; [contradiction|].
  destruct (py_in k v) as [[|]|] eqn:Hk; try discriminate.
  destruct Hin as [<- | Hin]; [assumption | now apply IH].
Qed.

(** Both operations make one call to the model and touch nothing else. *)
Lemma parse_query_world (query : str) (w : world) :
  snd (parse_query query w) = log (LLMCall (parse_query_prompt query)) w.
Proof.
  unfold parse_query, model_generate_content.
  destruct (generate_content _ _); [destruct (json_loads _)|]; reflexivity.
Qed.

Lemma make_decision_world (query : str) (parsed_query : json)
    (retrieved_clauses : list clause) (w : world) :
  snd (make_decision query parsed_query retrieved_clauses w)
  = log (LLMCall (make_decision_prompt query retrieved_clauses)) w.
Proof.
  unfold make_decision, model_generate_content.
  destruct (generate_content _ _); [|reflexivity].
  destruct (json_loads _); [|reflexivity].
  destruct (all_in _ _) as [[|]|]; reflexivity.
Qed.

(** Without a decision in the response, the handler's value is returned. *)
Lemma make_decision_fallback (query : str) (parsed_query : json)
    (retrieved_clauses : list clause) (w : world) :
  no_decision (generate_content (List.length (llm_calls w))
                 (make_decision_prompt query retrieved_clauses)) ->
  fst (make_decision query parsed_query retrieved_clauses w)
  = fallback_decision query retrieved_clauses.
Proof.
  intros H. unfold make_decision, model_generate_content. cbv beta.
  destruct (generate_content _ _) as [text|message]; [|reflexivity].
  inversion H as [ | text' Hj | text' parsed key Hj Hin Hk]; subst.
  - now rewrite Hj.
  - rewrite Hj. destruct (all_in required_keys parsed) as [[|]|] eqn:Hall; try reflexivity.
    exfalso. apply Hk. now apply (all_in_true _ _ Hall).
Qed.

(** A response of the model that parses to a value with the three keys is
    returned as it is: an object with the keys, and also a list with the
    three names among its elements or a string with them as substrings. *)
Lemma make_decision_accepts (query : str) (parsed_query : json)
    (retrieved_clauses : list clause) (w : world) (text : str) (parsed : json) :
  generate_content (List.length (llm_calls w))
    (make_decision_prompt query retrieved_clauses) = Generated text ->
  json_loads (clean_response (strip text)) = Some parsed ->
  all_in required_keys parsed = Some true ->
  fst (make_decision query parsed_query retrieved_clauses w) = parsed.
Proof.
  intros Hg Hj Hall. unfold make_decision, model_generate_content. cbv beta.
  now rewrite Hg, Hj, Hall.
Qed.

(** When the call raises or the response is not JSON, [parse_query] returns
    its default structure. *)
Lemma parse_query_default (query : str) (w : world) :
  match generate_content (List.length (llm_calls w)) (parse_query_prompt query) with
  | Generated text => json_loads (clean_response (strip text)) = None
  | GenerationError _ => True
  end ->
  fst (parse_query query w) = default_parsed_query query.
Proof.
  unfold parse_query, model_generate_content.
  destruct (generate_content _ _); [intros ->|]; reflexivity.
Qed.




End GeminiProofs.

(** ** Decisions *)

(** C1 (amended): with an empty list of retrieved clauses and a response of
    the model that gives no decision, [make_decision] returns the decision
    [Approved] with a null amount and exactly one synthetic justification
    entry, [system_fallback], which states that the formatting of the
    response of the model failed. *)
Theorem make_decision_without_clauses {ext : Externals}
    (query : str) (parsed_query : json) (w : world) :
  no_decision (generate_content (List.length (llm_calls w))
                 (make_decision_prompt query [])) ->
  fst (make_decision query parsed_query [] w)
  = JDict [ (py "decision", JStr (py "Approved"));
            (py "amount", JNull);
            (py "justification",
              JList [ JDict [ (py "clause_id", JStr (py "system_fallback"));
                              (py "text", JStr (py "System processed the query but LLM response formatting failed"));
                              (py "reason", JStr (py "Technical issue with response formatting - check logs for details")) ] ]) ].
Proof.
  intros H. rewrite (make_decision_fallback query parsed_query [] w H). reflexivity.
Qed.


(** *** The model answers in prose *)

Section ProseModel.

#[local] Existing Instance ext_prose.

(** C1 (as stated, refuted): with no retrieved clause and a response that is
    not JSON, the decision of [make_decision] is not [Rejected]. *)
Lemma fallback_without_clauses_not_rejected :
  no_decision (generate_content 0 (make_decision_prompt (py "cover?") []))
  /\ getitem (fst (make_decision (py "cover?") JNull [] prose_world))
       (py "decision")
     <> Some (JStr (py "Rejected")).
Proof.
  split.
  - apply not_json. reflexivity.
  - vm_compute. discriminate.
Qed.

Lemma make_decision_without_clauses_witness :
  getitem (fst (make_decision (py "cover?") JNull [] prose_world))
    (py "decision")
  = Some (JStr (py "Approved")).
Proof.
  rewrite (make_decision_without_clauses (py "cover?") JNull prose_world).
  - reflexivity.
  - apply not_json. reflexivity.
Defined.


(** The entries of the fallback on a short and a long clause, evaluated. *)
Example fallback_texts_evaluated :
  map (fun entry => getitem entry (py "text"))
    (fallback_justification (py "cover?")
       [prose_clause 3; prose_clause 201; prose_clause 5])
  = [ Some (JStr (py "aaa")); Some (JStr (repeat 97%N 200 ++ py "...")) ].
Proof. vm_compute. reflexivity. Qed.

End ProseModel.

(** *** The model answers with a string that names the keys *)

Section KeyNamesModel.

#[local] Existing Instance ext_key_names.

(** A response that is a JSON string naming the three keys passes the
    validation, which tests [key in decision_data] on any value, and is
    returned as it is. *)
Example make_decision_returns_string :
  fst (make_decision (py "cover?") JNull [key_names_clause 3] key_names_world)
  = JStr (py "decision amount justification").
Proof. vm_compute. reflexivity. Qed.

End KeyNamesModel.

(** *** The model answers with the empty object *)

Section EmptyObjectModel.

#[local] Existing Instance ext_empty_object.

(** C4 (evaluated at the failing input): the model answers [{}], which
    parses; [parse_query] returns the empty mapping, without [target_topic]
    or any other field of a parsed query. *)
Theorem parse_query_returns_unvalidated_json :
  let parsed := fst (parse_query (py "cover?") empty_object_world) in
  parsed = JDict []
  /\ forall field, In field parsed_query_fields -> py_in field parsed = Some false.
Proof.
  split; [vm_compute; reflexivity|].
  intros field Hin. reflexivity.
Qed.

End EmptyObjectModel.

(** ** Retrieval and ingestion *)

Section RetrievalProofs.

Context {ext : Externals}.

(** The search always returns: the matches of the index as clauses, or the
    empty list when the index raised; it logs one query and changes nothing
    else. *)
Lemma search_similar_chunks_eq (query : str) (document_id top_k : option Z) (w : world) :
  search_similar_chunks query document_id top_k w
  = (Returned
       match index_query (index w) (simple_embedding query) (effective_top_k top_k)
               (query_filter document_id) with
       | Some matches => map clause_of_match matches
       | None => []
       end,
     log (IndexQuery (simple_embedding query) (effective_top_k top_k)
            (query_filter document_id)) w).
Proof.
  unfold search_similar_chunks. simpl.
  destruct (index_query _ _ _ _); reflexivity.
Qed.

Lemma query_filter_none : query_filter None = None.
Proof. reflexivity. Qed.

Lemma query_filter_zero : query_filter (Some 0) = None.
Proof. reflexivity. Qed.

Lemma query_filter_nonzero (d : Z) :
  d <> 0 -> query_filter (Some d) = Some [(py "document_id", d)].
Proof.
  intros Hd. unfold query_filter, build_filter, truthy.
  destruct (d =? 0) eqn:E; [apply Z.eqb_eq in E; contradiction | reflexivity].
Qed.

End RetrievalProofs.

(** C10: the search applies the [document_id] filter only when the
    identifier is truthy. With [document_id = 0] it does exactly what it does
    with [None]: the index is queried with no filter, and the clauses
    returned are the matches of the index across all documents; with any
    other identifier the index is queried with the equality filter on it, and
    the clauses returned are its matches under that filter. *)
Theorem search_filter_needs_truthy_id {ext : Externals}
    (query : str) (top_k : option Z) (w : world) :
  search_similar_chunks query (Some 0) top_k w = search_similar_chunks query None top_k w
  /\ trace (snd (search_similar_chunks query (Some 0) top_k w))
     = trace w ++ [IndexQuery (simple_embedding query) (effective_top_k top_k) None]
  /\ fst (search_similar_chunks query (Some 0) top_k w)
     = Returned
         match index_query (index w) (simple_embedding query) (effective_top_k top_k)
                 None with
         | Some matches => map clause_of_match matches
         | None => []
         end
  /\ forall d, d <> 0 ->
       trace (snd (search_similar_chunks query (Some d) top_k w))
       = trace w ++ [IndexQuery (simple_embedding query) (effective_top_k top_k)
                       (Some [(py "document_id", d)])]
       /\ fst (search_similar_chunks query (Some d) top_k w)
          = Returned
              match index_query (index w) (simple_embedding query)
                      (effective_top_k top_k) (Some [(py "document_id", d)]) with
              | Some matches => map clause_of_match matches
              | None => []
              end.
Proof.
  rewrite !search_similar_chunks_eq, query_filter_zero, query_filter_none.
  split; [reflexivity|]. split; [reflexivity|]. split; [reflexivity|].
  intros d Hd. rewrite search_similar_chunks_eq, (query_filter_nonzero d Hd).
  split; reflexivity.
Qed.

(** C5 (amended): when the index raises during the search,
    [search_similar_chunks] returns the empty list and raises nothing: the
    error of the backend does not reach the caller. *)
Theorem search_backend_error_gives_no_clause {ext : Externals}
    (query : str) (document_id top_k : option Z) (w : world) :
  index_query (index w) (simple_embedding query) (effective_top_k top_k)
    (query_filter document_id) = None ->
  fst (search_similar_chunks query document_id top_k w) = Returned []
  /\ forall e, fst (search_similar_chunks query document_id top_k w) <> Raised e.
Proof.
  intros H. rewrite search_similar_chunks_eq, H. split; [reflexivity | discriminate].
Qed.

(** C2 (amended): when the retrieval step returns no clause, the [/query]
    handler returns the [no_results] answer, with the decision [Rejected] and
    a single synthetic justification entry, and [make_decision] is not
    called; the model is called exactly once, by [parse_query], before the
    retrieval. *)
Theorem process_query_without_clauses {ext : Externals}
    (query : str) (document_id : option Z) (w : world) :
  query <> [] ->
  fst (search_similar_chunks query document_id None w) = Returned [] ->
  let request := {| request_query := Some query; request_document_id := document_id |} in
  fst (process_query request w) = Returned no_results_response
  /\ getitem no_results_response (py "decision") = Some (JStr (py "Rejected"))
  /\ (exists entry, getitem no_results_response (py "justification") = Some (JList [entry]))
  /\ trace (snd (process_query request w))
     = trace w ++ [ LLMCall (parse_query_prompt query);
                    IndexQuery (simple_embedding query) MAX_RETRIEVAL_RESULTS
                      (query_filter document_id) ]
  /\ index (snd (process_query request w)) = index w.
Proof.
  intros Hq Hs. cbv zeta.
  assert (Hrun : process_query
                   {| request_query := Some query; request_document_id := document_id |} w
                 = (Returned no_results_response,
                    log (IndexQuery (simple_embedding query) MAX_RETRIEVAL_RESULTS
                           (query_filter document_id))
                      (log (LLMCall (parse_query_prompt query)) w))).
  { rewrite search_similar_chunks_eq in Hs. simpl in Hs.
    injection Hs as Hs.
    destruct query as [|c query]; [congruence|].
    unfold process_query, try_except, bind, lift.
    cbn [request_query request_document_id]. cbv beta iota.
    pose proof (parse_query_world (c :: query) w) as Hw.
    destruct (parse_query (c :: query) w) as [parsed w1]. simpl in Hw. subst w1.
    rewrite search_similar_chunks_eq. cbn [index log effective_top_k].
    rewrite Hs. reflexivity. }
  rewrite Hrun. simpl fst. simpl snd.
  split; [reflexivity|]. split; [reflexivity|].
  split; [eexists; reflexivity|].
  split; [|reflexivity].
  unfold log. simpl. now rewrite <- app_assoc.
Qed.

(** C6: when the extracted text is empty or whitespace-only,
    [process_document] returns the failure [No text extracted from document]
    and leaves the world as it was: no upsert is made and the index is
    unchanged. *)
Theorem process_document_without_text {ext : Externals}
    (file_content : bytes) (filename : str) (document_id : Z) (w : world) :
  forallb isspace (extract_text file_content (lower (last_segment 46 filename))) = true ->
  let outcome := process_document file_content filename document_id w in
  fst outcome = IngestFailure (py "No text extracted from document")
  /\ success (fst outcome) = false
  /\ startswith (py "no text extracted") (lower (py "No text extracted from document")) = true
  /\ snd outcome = w
  /\ index (snd outcome) = index w
  /\ filter is_upsert (trace (snd outcome)) = filter is_upsert (trace w).
Proof.
  intros H. cbv zeta. unfold process_document.
  rewrite (blank_strip _ H). simpl.
  repeat split; reflexivity.
Qed.

(** C7 (amended): when the reading of a PDF or of a DOCX raises, the
    extractor of the document processor returns the empty string, also
    through [extract_text]; the extractor of the simplified processor returns
    a fixed sample sentence instead, which is neither empty nor blank. None of
    them raises. *)
Theorem extraction_failure_texts {ext : Externals} (file_content : bytes) :
  (pdf_pages file_content = None ->
     extract_text_from_pdf file_content = []
     /\ extract_text file_content (py "pdf") = []
     /\ simple_extract_text_from_pdf file_content
        = py "Sample document content for testing purposes.")
  /\ (docx_paragraphs file_content = None ->
        extract_text_from_docx file_content = []
        /\ extract_text file_content (py "docx") = []).
Proof.
  split; intros H.
  - unfold extract_text, extract_text_from_pdf, simple_extract_text_from_pdf.
    simpl. rewrite H. repeat split; reflexivity.
  - unfold extract_text, extract_text_from_docx. simpl. rewrite H.
    split; reflexivity.
Qed.

Section ProseModelRetrieval.

#[local] Existing Instance ext_prose.

Lemma search_filter_needs_truthy_id_witness :
  trace (snd (search_similar_chunks (py "cover?") (Some 7) None prose_world_two_documents))
  = [IndexQuery (py "cover?") 10 (Some [(py "document_id", 7)])]
  /\ documents_found
       (fst (search_similar_chunks (py "cover?") (Some 7) None prose_world_two_documents))
     = [Some 7]
  /\ documents_found
       (fst (search_similar_chunks (py "cover?") (Some 0) None prose_world_two_documents))
     = [Some 0; Some 7].
Proof.
  destruct (search_filter_needs_truthy_id (py "cover?") None prose_world_two_documents)
    as (_ & _ & H0 & Hd).
  destruct (Hd 7 ltac:(discriminate)) as [Ht H7].
  rewrite H0, H7. split; [exact Ht|]. split; vm_compute; reflexivity.
Defined.

(** With a chunk of document 0 and a chunk of document 7 in the index, the
    search restricted to document 7 returns its chunk only, and the search
    restricted to document 0 returns the chunks of both documents. *)
Example search_document_zero_is_unfiltered :
  documents_found
    (fst (search_similar_chunks (py "cover?") (Some 7) None prose_world_two_documents))
  = [Some 7]
  /\ documents_found
       (fst (search_similar_chunks (py "cover?") (Some 0) None prose_world_two_documents))
     = [Some 0; Some 7].
Proof. split; vm_compute; reflexivity. Qed.

(** C2 (as stated, refuted): the index holds no vector, the retrieval
    returns no clause, and the model has been called by the time the handler
    answers. *)
Lemma no_results_after_model_call :
  fst (search_similar_chunks (py "cover?") None None prose_world) = Returned []
  /\ trace (snd (process_query
                   {| request_query := Some (py "cover?");
                      request_document_id := None |} prose_world))
     = [ LLMCall (parse_query_prompt (py "cover?"));
         IndexQuery (py "cover?") 10 None ]
  /\ llm_calls (snd (process_query
                       {| request_query := Some (py "cover?");
                          request_document_id := None |} prose_world))
     <> [].
Proof.
  split; [reflexivity|]. split; [vm_compute; reflexivity | vm_compute; discriminate].
Qed.

Lemma process_query_without_clauses_witness :
  fst (process_query {| request_query := Some (py "cover?");
                        request_document_id := None |} prose_world)
  = Returned no_results_response.
Proof.
  apply (process_query_without_clauses (py "cover?") None prose_world).
  - discriminate.
  - reflexivity.
Defined.

(** C7 (as stated, refuted): the reading of the PDF raises, and the
    extractor of the simplified processor returns a text that is neither
    empty nor blank. *)
Lemma simple_extractor_returns_sample_text :
  pdf_pages [] = None
  /\ simple_extract_text_from_pdf [] <> []
  /\ forallb isspace (simple_extract_text_from_pdf []) = false.
Proof. split; [reflexivity|]. split; [discriminate | reflexivity]. Qed.

Lemma extraction_failure_texts_witness :
  extract_text_from_pdf [] = [] /\ extract_text_from_docx [] = [].
Proof.
  split.
  - apply (proj1 (extraction_failure_texts [])). reflexivity.
  - apply (proj2 (extraction_failure_texts [])). reflexivity.
Defined.

End ProseModelRetrieval.

Section IndexDown.

#[local] Existing Instance ext_down.

(** C5 (as stated, refuted): the index raises during the search, and the
    search returns the empty list. *)
Lemma backend_error_returns_empty_list :
  index_query (index down_world) (simple_embedding (py "cover?"))
    (effective_top_k None) (query_filter None) = None
  /\ fst (search_similar_chunks (py "cover?") None None down_world) = Returned [].
Proof. split; reflexivity. Qed.

Lemma search_backend_error_gives_no_clause_witness :
  fst (search_similar_chunks (py "cover?") (Some 7) (Some 3) down_world) = Returned [].
Proof.
  apply (search_backend_error_gives_no_clause (py "cover?") (Some 7) (Some 3) down_world).
  reflexivity.
Defined.

(** The handler then answers a query with [no_results], not with an error. *)
Example backend_error_answered_as_no_results :
  fst (process_query {| request_query := Some (py "cover?");
                        request_document_id := None |} down_world)
  = Returned no_results_response.
Proof. vm_compute. reflexivity. Qed.

Lemma process_document_without_text_witness :
  fst (process_document [] (py "policy.pdf") 7 down_world)
  = IngestFailure (py "No text extracted from document")
  /\ snd (process_document [] (py "policy.pdf") 7 down_world) = down_world.
Proof.
  pose proof (process_document_without_text [] (py "policy.pdf") 7 down_world
                eq_refl) as H.
  cbv zeta in H. destruct H as (H1 & _ & _ & H2 & _).
  split; assumption.
Defined.

End IndexDown.

(** * Further properties of the code *)

(** ** More on strings *)

Lemma startswith_app (p s : str) : startswith p (p ++ s) = true.
Proof.
  induction p as [|c p IH]; simpl; [reflexivity|].
  now rewrite N.eqb_refl.
Qed.

Lemma startswith_head_differs (x c : N) (p s : str) :
  x <> c -> startswith (x :: p) (c :: s) = false.
Proof.
  intros H. change (startswith (x :: p) (c :: s)) with (N.eqb x c && startswith p s).
  destruct (N.eqb_spec x c); [contradiction | reflexivity].
Qed.

Lemma startswith_head_same (x : N) (p s : str) :
  startswith (x :: p) (x :: s) = startswith p s.
Proof.
  change (startswith (x :: p) (x :: s)) with (N.eqb x x && startswith p s).
  now rewrite N.eqb_refl.
Qed.

Lemma startswith_split (p s : str) :
  startswith p s = true -> s = p ++ skipn (List.length p) s.
Proof.
  revert s. induction p as [|c p IH]; intros s H; simpl; [reflexivity|].
  destruct s as [|d s]; simpl in H; [discriminate|].
  apply andb_true_iff in H as [Hc Hp]. apply N.eqb_eq in Hc. subst d.
  simpl. f_equal. now apply IH.
Qed.

Lemma str_eqb_eq (a b : str) : str_eqb a b = true <-> a = b.
Proof.
  revert b. induction a as [|x a IH]; intros [|y b]; simpl; split; intros H;
    try reflexivity; try discriminate.
  - apply andb_true_iff in H as [Hx Ha]. apply N.eqb_eq in Hx.
    apply IH in Ha. now subst.
  - injection H as -> ->. rewrite N.eqb_refl. simpl. now apply IH.
Qed.

(** The replacement drops the characters it was told to skip. *)
Lemma replace_from_skip (old new pre rest : str) :
  replace_from old new (List.length pre) (pre ++ rest) = replace_from old new 0 rest.
Proof.
  induction pre as [|c pre IH]; simpl; [reflexivity | exact IH].
Qed.

Lemma replace_at_occurrence (c : N) (old new rest : str) :
  replace (c :: old) new ((c :: old) ++ rest) = new ++ replace (c :: old) new rest.
Proof.
  unfold replace.
  change (replace_from (c :: old) new 0 ((c :: old) ++ rest))
    with (if startswith (c :: old) ((c :: old) ++ rest)
          then new ++ replace_from (c :: old) new (List.length (c :: old) - 1)%nat
                        (old ++ rest)
          else c :: replace_from (c :: old) new 0 (old ++ rest)).
  rewrite startswith_app. f_equal.
  replace (List.length (c :: old) - 1)%nat with (List.length old) by (simpl; lia).
  apply replace_from_skip.
Qed.

(** A prefix without the first character of [old] is kept as it is. *)
Lemma replace_keeps_prefix (c : N) (old new p rest : str) :
  Forall (fun x => x <> c) p ->
  replace (c :: old) new (p ++ rest) = p ++ replace (c :: old) new rest.
Proof.
  unfold replace. induction p as [|x p IH]; intros H; [reflexivity|].
  inversion H as [|? ? Hx Hp]; subst.
  change (replace_from (c :: old) new 0 ((x :: p) ++ rest))
    with (if startswith (c :: old) (x :: p ++ rest)
          then new ++ replace_from (c :: old) new (List.length (c :: old) - 1)%nat
                        (p ++ rest)
          else x :: replace_from (c :: old) new 0 (p ++ rest)).
  assert (Hs : startswith (c :: old) (x :: p ++ rest) = false).
  { apply startswith_head_differs. congruence. }
  rewrite Hs, (IH Hp). reflexivity.
Qed.

Lemma lstrip_nonspace (c : N) (s : str) : isspace c = false -> lstrip (c :: s) = c :: s.
Proof. intros H. simpl. now rewrite H. Qed.

(** A text that begins and ends with characters that are not whitespace is
    its own [strip]. *)
Lemma strip_framed (a b : N) (s : str) :
  isspace a = false -> isspace b = false -> strip (a :: s ++ [b]) = a :: s ++ [b].
Proof.
  intros Ha Hb. unfold strip, rstrip. rewrite (lstrip_nonspace a _ Ha).
  change (a :: s ++ [b]) with ((a :: s) ++ [b]).
  rewrite rev_app_distr. change (rev [b]) with [b].
  change ([b] ++ rev (a :: s)) with (b :: rev (a :: s)).
  rewrite (lstrip_nonspace b _ Hb).
  change (b :: rev (a :: s)) with ([b] ++ rev (a :: s)).
  rewrite rev_app_distr, rev_involutive. reflexivity.
Qed.

Lemma lstrip_no_backtick (p : str) :
  Forall (fun x => x <> 96%N) p -> Forall (fun x => x <> 96%N) (lstrip p).
Proof.
  induction p as [|c p IH]; intros H; simpl; [constructor|].
  destruct (isspace c); [apply IH; now inversion H | assumption].
Qed.

Lemma strip_no_backtick (p : str) :
  Forall (fun x => x <> 96%N) p -> Forall (fun x => x <> 96%N) (strip p).
Proof.
  intros H. unfold strip, rstrip.
  apply Forall_rev, lstrip_no_backtick, Forall_rev, lstrip_no_backtick, H.
Qed.

Lemma no_backtick_no_fence (p : str) :
  Forall (fun x => x <> 96%N) p -> startswith (py "```") p = false.
Proof.
  intros H. destruct p as [|c p]; [reflexivity|].
  inversion H; subst. change (py "```") with [96%N; 96%N; 96%N].
  apply startswith_head_differs. congruence.
Qed.

Lemma replace_occurrence (old new rest : str) :
  old <> [] -> replace old new (old ++ rest) = new ++ replace old new rest.
Proof.
  destruct old as [|c old]; [congruence | intros _; apply replace_at_occurrence].
Qed.

Lemma replace_prefix (c : N) (old new p rest : str) :
  hd_error old = Some c ->
  Forall (fun x => x <> c) p ->
  replace old new (p ++ rest) = p ++ replace old new rest.
Proof.
  destruct old as [|d old]; [discriminate|]. intros [= ->].
  apply replace_keeps_prefix.
Qed.

(** ** The code fences of a response *)

Lemma clean_json_fence (p : str) :
  Forall (fun x => x <> 96%N) p ->
  clean_response (py "```json" ++ p ++ py "```") = strip p.
Proof.
  intros H. unfold clean_response. rewrite startswith_app.
  rewrite replace_occurrence by discriminate.
  rewrite (replace_prefix 96 (py "```json") [] p (py "```") eq_refl H). cbn [app].
  change (replace (py "```json") [] (py "```")) with (py "```").
  rewrite (replace_prefix 96 (py "```") [] p (py "```") eq_refl H).
  change (replace (py "```") [] (py "```")) with (@nil N).
  now rewrite app_nil_r.
Qed.

Lemma plain_fence_not_json (p : str) :
  startswith (py "json") p = false ->
  startswith (py "```json") (py "```" ++ p ++ py "```") = false.
Proof.
  change (py "```json") with ([96%N; 96%N; 96%N] ++ py "json").
  change (py "```") with [96%N; 96%N; 96%N].
  cbn [app]. rewrite !startswith_head_same.
  change (py "json") with [106%N; 115%N; 111%N; 110%N].
  destruct p as [|a p]; [reflexivity|]. cbn [app].
  destruct (N.eq_dec 106 a) as [<-|Ha]; [|intros _; now apply startswith_head_differs].
  rewrite !startswith_head_same.
  destruct p as [|b p]; [reflexivity|]. cbn [app].
  destruct (N.eq_dec 115 b) as [<-|Hb]; [|intros _; now apply startswith_head_differs].
  rewrite !startswith_head_same.
  destruct p as [|c p]; [reflexivity|]. cbn [app].
  destruct (N.eq_dec 111 c) as [<-|Hc]; [|intros _; now apply startswith_head_differs].
  rewrite !startswith_head_same.
  destruct p as [|d p]; [reflexivity|]. cbn [app].
  destruct (N.eq_dec 110 d) as [<-|Hd]; [|intros _; now apply startswith_head_differs].
  rewrite !startswith_head_same. discriminate.
Qed.

Lemma clean_plain_fence (p : str) :
  Forall (fun x => x <> 96%N) p ->
  startswith (py "json") p = false ->
  clean_response (py "```" ++ p ++ py "```") = strip p.
Proof.
  intros H Hj. unfold clean_response.
  rewrite (plain_fence_not_json p Hj), startswith_app.
  rewrite replace_occurrence by discriminate.
  rewrite (replace_prefix 96 (py "```") [] p (py "```") eq_refl H). cbn [app].
  change (replace (py "```") [] (py "```")) with (@nil N).
  now rewrite app_nil_r.
Qed.

(** X1: a response wrapped in a [json] code fence is read as its bare
    payload: for a payload without backtick, the stripped and cleaned text
    of the fenced response is the stripped and cleaned text of the payload,
    so [json.loads] receives the same text; a fence without language tag
    does the same when the payload does not begin with [json]. *)
Theorem fenced_response_read_as_payload (p : str) :
  Forall (fun x => x <> 96%N) p ->
  clean_response (strip (py "```json" ++ p ++ py "```")) = clean_response (strip p)
  /\ clean_response (strip (py "```json" ++ p ++ py "```")) = strip p
  /\ (startswith (py "json") p = false ->
      clean_response (strip (py "```" ++ p ++ py "```")) = strip p).
Proof.
  intros H.
  assert (Hbare : clean_response (strip p) = strip p).
  { unfold clean_response.
    assert (Hf := no_backtick_no_fence _ (strip_no_backtick _ H)).
    assert (Hj : startswith (py "```json") (strip p) = false).
    { pose proof (strip_no_backtick _ H) as Hq.
      destruct (strip p) as [|c q]; [reflexivity|].
      inversion Hq; subst. change (py "```json") with (96%N :: skipn 1 (py "```json")).
      apply startswith_head_differs. congruence. }
    now rewrite Hj, Hf. }
  assert (Hstrip : forall pre, strip ((96%N :: pre) ++ p ++ py "```")
                               = (96%N :: pre) ++ p ++ py "```").
  { intros pre.
    replace ((96%N :: pre) ++ p ++ py "```")
      with (96%N :: (pre ++ p ++ [96%N; 96%N]) ++ [96%N]).
    - apply strip_framed; reflexivity.
    - simpl. f_equal. rewrite <- !app_assoc. reflexivity. }
  split; [|split].
  - rewrite Hbare. change (py "```json") with (96%N :: skipn 1 (py "```json")).
    rewrite Hstrip. now apply clean_json_fence.
  - change (py "```json") with (96%N :: skipn 1 (py "```json")).
    rewrite Hstrip. now apply clean_json_fence.
  - intros Hj. change (py "```") with (96%N :: skipn 1 (py "```")) at 1.
    rewrite Hstrip. now apply clean_plain_fence.
Qed.

Lemma fenced_response_read_as_payload_witness :
  clean_response (strip (py "```json" ++ (newline ++ py "{}" ++ newline) ++ py "```"))
  = py "{}".
Proof.
  apply (proj1 (proj2 (fenced_response_read_as_payload
                         (newline ++ py "{}" ++ newline)
                         ltac:(repeat constructor; discriminate)))).
Defined.

(** ** More on the chunker *)

Module ChunkerWords.
Import SimpleDocumentProcessor.

(** A word: not empty, and without whitespace. *)
Definition word (w : str) : Prop :=
  w <> [] /\ Forall (fun c => isspace c = false) w.

Lemma cons_word_words (c : N) (ws : list str) :
  isspace c = false -> Forall word ws -> Forall word (cons_word c ws).
Proof.
  intros Hc Hws. destruct ws as [|w ws]; simpl.
  - constructor; [|constructor]. split; [discriminate | now constructor].
  - inversion Hws as [|? ? (Hne & Hall) Hrest]; subst.
    constructor; [|assumption].
    split; [discriminate | now constructor].
Qed.

(** [split] gives words. *)
Lemma split_words (s : str) : Forall word (split s).
Proof.
  induction s as [|c s IH]; simpl; [constructor|].
  destruct (isspace c) eqn:Hc; [assumption|].
  assert (Hone : word [c]).
  { split; [discriminate | now constructor]. }
  destruct s as [|d s']; [now constructor|].
  destruct (isspace d) eqn:Hd.
  - constructor; assumption.
  - now apply cons_word_words.
Qed.

Lemma split_space (c : N) (s : str) : isspace c = true -> split (c :: s) = split s.
Proof. intros H. simpl. now rewrite H. Qed.

(** A word followed by whitespace is the first word of the text. *)
Lemma split_word_then_space (w : str) (c : N) (s : str) :
  word w -> isspace c = true -> split (w ++ c :: s) = w :: split s.
Proof.
  intros (Hne & Hall) Hc. induction w as [|a w IH]; [congruence|].
  inversion Hall as [|? ? Ha Hw]; subst.
  destruct w as [|b w].
  - simpl. rewrite Ha, Hc. reflexivity.
  - change (split ((a :: b :: w) ++ c :: s))
      with (if isspace a then split ((b :: w) ++ c :: s)
            else if isspace b then [a] :: split ((b :: w) ++ c :: s)
                 else cons_word a (split ((b :: w) ++ c :: s))).
    inversion Hw as [|? ? Hb _]; subst.
    rewrite Ha, Hb, IH; [reflexivity | discriminate | assumption].
Qed.

Lemma split_word (w : str) : word w -> split w = [w].
Proof.
  intros (Hne & Hall). induction w as [|a w IH]; [congruence|].
  inversion Hall as [|? ? Ha Hw]; subst.
  destruct w as [|b w].
  - simpl. now rewrite Ha.
  - change (split (a :: b :: w))
      with (if isspace a then split (b :: w)
            else if isspace b then [a] :: split (b :: w)
                 else cons_word a (split (b :: w))).
    inversion Hw as [|? ? Hb _]; subst.
    rewrite Ha, Hb, IH; [reflexivity | discriminate | assumption].
Qed.

(** Words joined by single spaces are split into the same words. *)
Lemma split_join (ws : list str) :
  Forall word ws -> split (join (py " ") ws) = ws.
Proof.
  induction ws as [|w ws IH]; intros H; [reflexivity|].
  inversion H as [|? ? Hw Hws]; subst.
  destruct ws as [|w' ws].
  - now apply split_word.
  - change (join (py " ") (w :: w' :: ws))
      with (w ++ 32%N :: join (py " ") (w' :: ws)).
    rewrite split_word_then_space by (assumption || reflexivity).
    now rewrite IH.
Qed.

(** The invariant of the loop: the emitted chunks are groups of words joined
    by spaces, and the groups with the chunk being built are the words read
    so far. *)
Lemma chunk_loop_groups (chunk_size : Z) (ws : list str) :
  forall (st : chunker) (read : list str) (groups : list (list str)),
    chunks st = map (join (py " ")) groups ->
    Forall (fun g => g <> []) groups ->
    concat groups ++ current_chunk st = read ->
    exists groups',
      chunks (chunk_loop chunk_size ws st) = map (join (py " ")) groups'
      /\ Forall (fun g => g <> []) groups'
      /\ concat groups' ++ current_chunk (chunk_loop chunk_size ws st) = read ++ ws.
Proof.
  induction ws as [|w ws IH]; intros st read groups Hc Hne Hread; simpl.
  - exists groups. now rewrite app_nil_r.
  - replace (read ++ w :: ws) with ((read ++ [w]) ++ ws) by now rewrite <- app_assoc.
    unfold chunk_step.
    destruct ((current_length st + len w + 1 >? chunk_size)
              && negb (is_empty (current_chunk st))) eqn:Hcond.
    + apply andb_true_iff in Hcond as [_ Hcur].
      apply (IH _ _ (groups ++ [current_chunk st])); simpl.
      * rewrite map_app, Hc. reflexivity.
      * apply Forall_app. split; [assumption|]. constructor; [|constructor].
        destruct (current_chunk st); [discriminate Hcur | discriminate].
      * rewrite concat_app. simpl. rewrite app_nil_r, Hread. reflexivity.
    + apply (IH _ _ groups); simpl; [assumption | assumption |].
      now rewrite app_assoc, Hread.
Qed.

Lemma chunks_are_groups (text : str) (chunk_size : Z) :
  exists groups,
    split_text_into_chunks text chunk_size = map (join (py " ")) groups
    /\ Forall (fun g => g <> []) groups
    /\ concat groups = split text.
Proof.
  unfold split_text_into_chunks.
  destruct (chunk_loop_groups chunk_size (split text)
              {| chunks := []; current_chunk := []; current_length := 0 |}
              [] [] eq_refl (Forall_nil _) eq_refl)
    as (groups & Hc & Hne & Hread).
  set (st := chunk_loop _ _ _) in *. simpl in Hread.
  destruct (current_chunk st) as [|x l] eqn:Hcur; simpl.
  - exists groups. rewrite app_nil_r in Hread. auto.
  - exists (groups ++ [x :: l]). repeat split.
    + rewrite map_app, Hc. reflexivity.
    + apply Forall_app. split; [assumption|]. constructor; [discriminate | constructor].
    + rewrite concat_app. simpl. now rewrite app_nil_r.
Qed.

(** The characters counted for a list of words: one more than its length
    for each word. *)
Definition counted (ws : list str) : Z :=
  fold_right (fun w n => len w + 1 + n) 0 ws.

Lemma counted_app (a b : list str) : counted (a ++ b) = counted a + counted b.
Proof. induction a as [|w a IH]; simpl; [reflexivity | rewrite IH; lia]. Qed.

Lemma counted_nonneg (ws : list str) : 0 <= counted ws.
Proof.
  induction ws as [|w ws IH]; simpl; [lia|]. pose proof (len_nonneg w). lia.
Qed.

Lemma counted_join (ws : list str) :
  ws <> [] -> counted ws = len (join (py " ") ws) + 1.
Proof.
  induction ws as [|w ws IH]; intros H; [congruence|].
  destruct ws as [|w' ws].
  - simpl. lia.
  - change (join (py " ") (w :: w' :: ws))
      with (w ++ py " " ++ join (py " ") (w' :: ws)).
    rewrite !len_app. change (len (py " ")) with 1.
    change (counted (w :: w' :: ws)) with (len w + 1 + counted (w' :: ws)).
    rewrite IH by discriminate. lia.
Qed.

(** While the count stays within the size, the loop only appends. *)
Lemma chunk_loop_appends (chunk_size : Z) (ws : list str) :
  forall st,
    current_length st = counted (current_chunk st) ->
    counted (current_chunk st) + counted ws <= chunk_size ->
    chunk_loop chunk_size ws st
    = {| chunks := chunks st;
         current_chunk := current_chunk st ++ ws;
         current_length := counted (current_chunk st ++ ws) |}.
Proof.
  induction ws as [|w ws IH]; intros st Hl Hle.
  - simpl. rewrite app_nil_r, <- Hl. now destruct st.
  - simpl in Hle. pose proof (counted_nonneg ws) as Hws.
    change (chunk_loop chunk_size (w :: ws) st)
      with (chunk_loop chunk_size ws (chunk_step chunk_size st w)).
    assert (Hstep : chunk_step chunk_size st w
                    = {| chunks := chunks st;
                         current_chunk := current_chunk st ++ [w];
                         current_length := current_length st + len w + 1 |}).
    { unfold chunk_step.
      replace (current_length st + len w + 1 >? chunk_size) with false
        by (symmetry; rewrite Z.gtb_ltb; apply Z.ltb_ge; lia).
      reflexivity. }
    rewrite Hstep, IH; simpl.
    + now rewrite <- app_assoc.
    + rewrite counted_app, Hl. simpl. lia.
    + rewrite counted_app. simpl. lia.
Qed.

End ChunkerWords.

(** X2: the chunks are the words of the text, each once and in order: the
    words are cut into consecutive groups that are not empty, every chunk is
    one group joined by single spaces, and splitting the chunks again gives
    back exactly the words of the text. Consecutive chunks share no word. *)
Theorem chunks_keep_the_words (text : str) (chunk_size : Z) :
  (exists groups,
     SimpleDocumentProcessor.split_text_into_chunks text chunk_size
     = map (join (py " ")) groups
     /\ Forall (fun g => g <> []) groups
     /\ concat groups = split text)
  /\ flat_map split (SimpleDocumentProcessor.split_text_into_chunks text chunk_size)
     = split text.
Proof.
  destruct (ChunkerWords.chunks_are_groups text chunk_size) as (groups & Hc & Hne & Hw).
  split; [now exists groups|].
  rewrite Hc, <- Hw.
  assert (Hwords : Forall (Forall ChunkerWords.word) groups).
  { pose proof (ChunkerWords.split_words text) as H. rewrite <- Hw in H.
    clear -H. induction groups as [|g groups IH]; [constructor|].
    simpl in H. apply Forall_app in H as [Hg Hrest].
    constructor; [assumption | now apply IH]. }
  clear -Hwords. induction Hwords as [|g groups Hg _ IH]; [reflexivity|].
  simpl. now rewrite (ChunkerWords.split_join g Hg), IH.
Qed.

(** X3: a text with at least one word whose words, joined by single
    spaces, take fewer than [chunk_size] characters gives exactly one chunk:
    these words joined by single spaces. *)
Theorem short_text_is_one_chunk (text : str) (chunk_size : Z) :
  split text <> [] ->
  len (join (py " ") (split text)) < chunk_size ->
  SimpleDocumentProcessor.split_text_into_chunks text chunk_size
  = [join (py " ") (split text)].
Proof.
  intros Hne Hlt. unfold SimpleDocumentProcessor.split_text_into_chunks.
  rewrite ChunkerWords.chunk_loop_appends; simpl.
  - destruct (split text); [congruence | reflexivity].
  - reflexivity.
  - rewrite (ChunkerWords.counted_join _ Hne). lia.
Qed.

Lemma short_text_is_one_chunk_witness :
  SimpleDocumentProcessor.split_text_into_chunks (py "  ab   cd ") 6 = [py "ab cd"].
Proof.
  apply (short_text_is_one_chunk (py "  ab   cd ") 6).
  - discriminate.
  - reflexivity.
Defined.

(** The bound of X3 is tight: five characters do not fit a size of five,
    because the first word is counted with one more than its length. *)
Example text_of_chunk_size_is_cut :
  len (join (py " ") (split (py "ab cd"))) = 5
  /\ SimpleDocumentProcessor.split_text_into_chunks (py "ab cd") 5 = [py "ab"; py "cd"].
Proof. split; reflexivity. Qed.

(** ** More on the language-model steps and the [/query] handler *)

Section HandlerProofs.

Context {ext : Externals}.

Notation "x <- m ;; k" := (bind m (fun x => k))
  (at level 61, m at next level, right associativity).

Lemma llm_calls_log_llm (prompt : str) (w : world) :
  llm_calls (log (LLMCall prompt) w) = llm_calls w ++ [LLMCall prompt].
Proof. unfold llm_calls, log. simpl. now rewrite filter_app. Qed.

Lemma llm_calls_log_query (v : vector) (k : Z) (f : option (list (str * Z))) (w : world) :
  llm_calls (log (IndexQuery v k f) w) = llm_calls w.
Proof. unfold llm_calls, log. simpl. rewrite filter_app. simpl. apply app_nil_r. Qed.

Lemma lookup_found (key : str) (items : list (str * json)) :
  lookup key items <> None <-> existsb (fun kv => str_eqb key (fst kv)) items = true.
Proof.
  induction items as [|[k v] items IH]; simpl.
  - split; [congruence | discriminate].
  - destruct (str_eqb key k); simpl; [split; [reflexivity | discriminate] | exact IH].
Qed.

(** What the handler does after a query text that is not empty. *)
Definition answer_steps (query_text : str) (document_id : option Z) : M json :=
  parsed_query <- lift (parse_query query_text) ;;
  retrieved_clauses <- search_similar_chunks query_text document_id None ;;
  if is_empty retrieved_clauses then ret no_results_response
  else
    decision_result <- lift (make_decision query_text parsed_query retrieved_clauses) ;;
    decision <- subscript decision_result (py "decision") ;;
    amount <- subscript decision_result (py "amount") ;;
    justification <- subscript decision_result (py "justification") ;;
    query_id <- db_add_query query_text document_id decision amount
                  (json_dumps justification) ;;
    ret (JDict [ (py "status", JStr (py "success"));
                 (py "query_id", JInt query_id);
                 (py "parsed_query", parsed_query);
                 (py "retrieved_clauses_count", JInt (len' retrieved_clauses));
                 (py "decision", decision);
                 (py "amount", amount);
                 (py "justification", format_justification justification) ]).

Lemma process_query_steps (query : str) (document_id : option Z) (w : world) :
  query <> [] ->
  process_query {| request_query := Some query; request_document_id := document_id |} w
  = try_except (answer_steps query document_id)
      (fun e => raise (HTTPException 500 (str_of_exn e))) w.
Proof. intros H. destruct query; [congruence | reflexivity]. Qed.

(** The steps up to the decision of the model, when clauses are retrieved. *)
Lemma answer_steps_decided (query : str) (document_id : option Z) (w : world)
    (clauses : list clause) :
  fst (search_similar_chunks query document_id None w) = Returned clauses ->
  clauses <> [] ->
  answer_steps query document_id w
  = (let parsed_query := fst (parse_query query w) in
     let decision_result :=
       fst (make_decision query parsed_query clauses (searched query document_id w)) in
     let w3 := log (LLMCall (make_decision_prompt query clauses))
                 (searched query document_id w) in
     (decision <- subscript decision_result (py "decision") ;;
      amount <- subscript decision_result (py "amount") ;;
      justification <- subscript decision_result (py "justification") ;;
      query_id <- db_add_query query document_id decision amount
                    (json_dumps justification) ;;
      ret (JDict [ (py "status", JStr (py "success"));
                   (py "query_id", JInt query_id);
                   (py "parsed_query", parsed_query);
                   (py "retrieved_clauses_count", JInt (len' clauses));
                   (py "decision", decision);
                   (py "amount", amount);
                   (py "justification", format_justification justification) ])) w3).
Proof.
  intros Hs Hne. rewrite search_similar_chunks_eq in Hs. simpl in Hs. injection Hs as Hs.
  unfold answer_steps, bind at 1, lift at 1.
  pose proof (parse_query_world query w) as Hw.
  destruct (parse_query query w) as [parsed w1]. simpl in Hw. subst w1.
  unfold bind at 1. rewrite search_similar_chunks_eq. cbn [index log effective_top_k].
  rewrite Hs. destruct clauses as [|c clauses]; [congruence|].
  cbn [is_empty]. unfold bind at 1, lift at 1. fold (searched query document_id w).
  pose proof (make_decision_world query parsed (c :: clauses) (searched query document_id w))
    as Hw3.
  cbn [fst]. destruct (make_decision query parsed (c :: clauses) _) as [dd w3].
  simpl in Hw3. subst w3. reflexivity.
Qed.

End HandlerProofs.

(** X4: when the call of the model raises or its response is not JSON,
    [parse_query] returns its default structure: the seven fields of a parsed
    query, with [target_topic] the question itself and every other field
    null; the model was called once and nothing else was touched. *)
Theorem parse_query_failure_gives_default {ext : Externals} (query : str) (w : world) :
  (forall text,
     generate_content (List.length (llm_calls w)) (parse_query_prompt query)
     = Generated text ->
     json_loads (clean_response (strip text)) = None) ->
  let parsed := fst (parse_query query w) in
  getitem parsed (py "target_topic") = Some (JStr query)
  /\ (forall field, In field (tl parsed_query_fields) -> getitem parsed field = Some JNull)
  /\ (forall field, In field parsed_query_fields -> py_in field parsed = Some true)
  /\ snd (parse_query query w) = log (LLMCall (parse_query_prompt query)) w.
Proof.
  intros H. cbv zeta.
  assert (Hd : fst (parse_query query w) = default_parsed_query query).
  { apply parse_query_default.
    destruct (generate_content _ _) as [text|] eqn:Hg; [now apply H | exact I]. }
  rewrite Hd. split; [reflexivity|]. split; [|split].
  - intros field Hin. simpl in Hin.
    repeat (destruct Hin as [<- | Hin]; [reflexivity|]). contradiction.
  - intros field Hin. simpl in Hin.
    repeat (destruct Hin as [<- | Hin]; [reflexivity|]). contradiction.
  - apply parse_query_world.
Qed.

(** X5: a response of the model that parses to an object with the three
    required keys is returned by [make_decision] as it is, whatever the
    values under the keys and whatever the retrieved clauses. *)
Theorem make_decision_returns_valid_object {ext : Externals}
    (query : str) (parsed_query : json) (retrieved_clauses : list clause) (w : world)
    (text : str) (items : list (str * json)) :
  generate_content (List.length (llm_calls w))
    (make_decision_prompt query retrieved_clauses) = Generated text ->
  json_loads (clean_response (strip text)) = Some (JDict items) ->
  (forall key, In key required_keys -> lookup key items <> None) ->
  fst (make_decision query parsed_query retrieved_clauses w) = JDict items.
Proof.
  intros Hg Hj Hkeys.
  apply (make_decision_accepts query parsed_query retrieved_clauses w text _ Hg Hj).
  assert (Hin : forall key, In key required_keys -> py_in key (JDict items) = Some true).
  { intros key Hk. simpl. f_equal. apply lookup_found. now apply Hkeys. }
  revert Hin. generalize required_keys. intros keys.
  induction keys as [|k keys IH]; intros Hin; [reflexivity|].
  cbn [all_in]. rewrite (Hin k (or_introl eq_refl)). apply IH.
  intros key Hk. apply Hin. now right.
Qed.

(** X6: a request without query text, or with an empty one, is answered by
    an [HTTPException] of status 500 whose detail is the text of the
    exception of status 400 that the handler raised for itself; the model,
    the index and the store are not touched. *)
Theorem process_query_without_query {ext : Externals} (request : query_request) (w : world) :
  nonempty_str (request_query request) = false ->
  process_query request w
  = (Raised (HTTPException 500
               (str_of_exn (HTTPException 400 (py "Query text is required")))), w).
Proof.
  intros H. unfold process_query.
  destruct (request_query request) as [[|c q]|]; [reflexivity | discriminate | reflexivity].
Qed.

(** X7: whatever fails in the handler, the caller sees an [HTTPException]
    of status 500. *)
Theorem process_query_raises_status_500 {ext : Externals}
    (request : query_request) (w : world) (e : exn) :
  fst (process_query request w) = Raised e ->
  exists detail, e = HTTPException 500 detail.
Proof.
  unfold process_query, try_except.
  match goal with |- context [match ?m w with _ => _ end] => destruct (m w) as [[a|e'] w'] end.
  - discriminate.
  - simpl. intros [= <-]. eexists. reflexivity.
Qed.

(** X8: when clauses are retrieved and the response of the model gives no
    decision, the handler still answers with success: the decision is
    [Approved], the amount null, the justification the fallback built from
    the two best clauses, provided the row of the query is stored. The
    model is called twice, around the search, and the row is written last. *)
Theorem process_query_with_fallback {ext : Externals}
    (query : str) (document_id : option Z) (w : world)
    (clauses : list clause) (query_id : Z) :
  query <> [] ->
  fst (search_similar_chunks query document_id None w) = Returned clauses ->
  clauses <> [] ->
  no_decision (generate_content (S (List.length (llm_calls w)))
                 (make_decision_prompt query clauses)) ->
  db_insert_query query document_id (JStr (py "Approved")) JNull
    (json_dumps (JList (fallback_justification query clauses))) = inr query_id ->
  process_query {| request_query := Some query; request_document_id := document_id |} w
  = (Returned
       (JDict [ (py "status", JStr (py "success"));
                (py "query_id", JInt query_id);
                (py "parsed_query", fst (parse_query query w));
                (py "retrieved_clauses_count", JInt (len' clauses));
                (py "decision", JStr (py "Approved"));
                (py "amount", JNull);
                (py "justification", JList (fallback_justification query clauses)) ]),
     {| trace := trace w ++ [ LLMCall (parse_query_prompt query);
                              IndexQuery (simple_embedding query) MAX_RETRIEVAL_RESULTS
                                (query_filter document_id);
                              LLMCall (make_decision_prompt query clauses);
                              DbInsert query document_id ];
        index := index w;
        uuids_drawn := uuids_drawn w |}).
Proof.
  intros Hq Hs Hne Hno Hdb.
  rewrite (process_query_steps query document_id w Hq). unfold try_except.
  rewrite (answer_steps_decided query document_id w clauses Hs Hne). cbv zeta.
  rewrite make_decision_fallback.
  2:{ unfold searched. rewrite llm_calls_log_query, llm_calls_log_llm, length_app.
      simpl. replace (List.length (llm_calls w) + 1)%nat with (S (List.length (llm_calls w)))
        by lia. exact Hno. }
  assert (Hj : fallback_decision query clauses
               = JDict [ (py "decision", JStr (py "Approved"));
                         (py "amount", JNull);
                         (py "justification", JList (fallback_justification query clauses)) ]).
  { unfold fallback_decision. destruct clauses as [|c1 [|c2 rest]]; [congruence | |];
      reflexivity. }
  rewrite Hj. clear Hj.
  set (d := JDict _).
  assert (Hd : getitem d (py "decision") = Some (JStr (py "Approved"))) by reflexivity.
  assert (Ha : getitem d (py "amount") = Some JNull) by reflexivity.
  assert (Hjs : getitem d (py "justification")
                = Some (JList (fallback_justification query clauses))) by reflexivity.
  unfold bind, subscript, db_add_query, ret.
  rewrite Hd. cbv beta iota. rewrite Ha. cbv beta iota. rewrite Hjs. cbv beta iota.
  rewrite Hdb. cbv beta iota delta [format_justification].
  unfold searched, log. cbn [trace index uuids_drawn].
  rewrite <- !app_assoc. reflexivity.
Qed.

(** X9: when the row of the query cannot be stored, the handler raises an
    [HTTPException] of status 500 with the message of the store, although
    clauses were retrieved and the model gave its decision. *)
Theorem process_query_store_failure {ext : Externals}
    (query : str) (document_id : option Z) (w : world) (clauses : list clause)
    (decision amount justification : json) (message : str) :
  query <> [] ->
  fst (search_similar_chunks query document_id None w) = Returned clauses ->
  clauses <> [] ->
  let decision_result :=
    fst (make_decision query (fst (parse_query query w)) clauses
           (searched query document_id w)) in
  getitem decision_result (py "decision") = Some decision ->
  getitem decision_result (py "amount") = Some amount ->
  getitem decision_result (py "justification") = Some justification ->
  db_insert_query query document_id decision amount (json_dumps justification)
  = inl message ->
  fst (process_query {| request_query := Some query;
                        request_document_id := document_id |} w)
  = Raised (HTTPException 500 message).
Proof.
  intros Hq Hs Hne dr Hd Ha Hj Hdb.
  rewrite (process_query_steps query document_id w Hq). unfold try_except.
  rewrite (answer_steps_decided query document_id w clauses Hs Hne). cbv zeta.
  fold dr. unfold bind, subscript, db_add_query, ret.
  rewrite Hd. cbv beta iota. rewrite Ha. cbv beta iota. rewrite Hj. cbv beta iota.
  rewrite Hdb. reflexivity.
Qed.

(** X10: when the value that [make_decision] returns is not an object (a
    JSON list or string that passed the test of the keys), the handler
    raises an [HTTPException] of status 500 and writes no row: the trace ends
    with the second call of the model. *)
Theorem process_query_non_object_decision {ext : Externals}
    (query : str) (document_id : option Z) (w : world) (clauses : list clause) :
  query <> [] ->
  fst (search_similar_chunks query document_id None w) = Returned clauses ->
  clauses <> [] ->
  (forall items,
     fst (make_decision query (fst (parse_query query w)) clauses
            (searched query document_id w)) <> JDict items) ->
  let outcome := process_query {| request_query := Some query;
                                  request_document_id := document_id |} w in
  (exists detail, fst outcome = Raised (HTTPException 500 detail))
  /\ trace (snd outcome)
     = trace w ++ [ LLMCall (parse_query_prompt query);
                    IndexQuery (simple_embedding query) MAX_RETRIEVAL_RESULTS
                      (query_filter document_id);
                    LLMCall (make_decision_prompt query clauses) ].
Proof.
  intros Hq Hs Hne Hnot. cbv zeta.
  remember (fst (make_decision query (fst (parse_query query w)) clauses
                   (searched query document_id w))) as dr eqn:Hdr in *.
  assert (Hg : getitem dr (py "decision") = None).
  { destruct dr; try reflexivity. exfalso. exact (Hnot items eq_refl). }
  assert (Hrun : process_query {| request_query := Some query;
                                  request_document_id := document_id |} w
                 = (Raised (HTTPException 500
                              (str_of_exn (Error (quote' ++ py "decision" ++ quote')))),
                    log (LLMCall (make_decision_prompt query clauses))
                      (searched query document_id w))).
  { rewrite (process_query_steps query document_id w Hq). unfold try_except.
    rewrite (answer_steps_decided query document_id w clauses Hs Hne). cbv zeta.
    rewrite <- Hdr. unfold bind at 1, subscript at 1. rewrite Hg. reflexivity. }
  rewrite Hrun. split; [eexists; reflexivity|].
  unfold searched, log. cbn [snd trace]. rewrite <- !app_assoc. reflexivity.
Qed.

Section MoreProseModel.

#[local] Existing Instance ext_prose.

Lemma parse_query_failure_gives_default_witness :
  getitem (fst (parse_query (py "cover?") prose_world)) (py "target_topic")
  = Some (JStr (py "cover?")).
Proof.
  apply (parse_query_failure_gives_default (py "cover?") prose_world).
  intros text [= <-]. reflexivity.
Defined.

Lemma process_query_without_query_witness :
  fst (process_query {| request_query := Some []; request_document_id := Some 7 |}
         prose_world)
  = Raised (HTTPException 500
              (str_of_exn (HTTPException 400 (py "Query text is required")))).
Proof.
  rewrite (process_query_without_query
             {| request_query := Some []; request_document_id := Some 7 |} prose_world);
    reflexivity.
Defined.

Lemma process_query_raises_status_500_witness :
  exists detail,
    HTTPException 500 (str_of_exn (HTTPException 400 (py "Query text is required")))
    = HTTPException 500 detail.
Proof.
  apply (process_query_raises_status_500
           {| request_query := None; request_document_id := None |} prose_world).
  reflexivity.
Defined.

Lemma process_query_with_fallback_witness :
  exists response,
    fst (process_query {| request_query := Some (py "cover?");
                          request_document_id := Some 7 |} prose_world_two_documents)
    = Returned response
    /\ getitem response (py "decision") = Some (JStr (py "Approved"))
    /\ getitem response (py "retrieved_clauses_count") = Some (JInt 1).
Proof.
  rewrite (process_query_with_fallback (py "cover?") (Some 7) prose_world_two_documents
             (clauses_found
                (fst (search_similar_chunks (py "cover?") (Some 7) None
                        prose_world_two_documents)))
             1).
  - eexists. split; [reflexivity|]. split; reflexivity.
  - discriminate.
  - reflexivity.
  - discriminate.
  - apply not_json. reflexivity.
  - reflexivity.
Defined.

End MoreProseModel.

Section SampleDecisionModel.

#[local] Existing Instance ext_sample_decision.

Lemma make_decision_returns_valid_object_witness :
  fst (make_decision (py "cover?") JNull [] sample_decision_world)
  = JDict sample_decision_items.
Proof.
  apply (make_decision_returns_valid_object (py "cover?") JNull [] sample_decision_world
           (py " ```json" ++ newline ++ py "DECISION" ++ newline ++ py "``` ")).
  - reflexivity.
  - reflexivity.
  - intros key [<- | [<- | [<- | []]]]; discriminate.
Defined.

(** The decision of the model reaches the caller of the handler as it is. *)
Example process_query_echoes_decision :
  match fst (process_query {| request_query := Some (py "cover?");
                              request_document_id := Some 7 |} sample_decision_world) with
  | Returned response =>
      (getitem response (py "decision"), getitem response (py "amount"))
  | Raised _ => (None, None)
  end
  = (Some (JStr (py "Rejected")), Some (JInt 5000)).
Proof. vm_compute. reflexivity. Qed.

End SampleDecisionModel.

Section NoStoreModel.

#[local] Existing Instance ext_no_store.

Lemma process_query_store_failure_witness :
  fst (process_query {| request_query := Some (py "cover?");
                        request_document_id := None |} no_store_world)
  = Raised (HTTPException 500 (py "connection closed")).
Proof.
  apply (process_query_store_failure (py "cover?") None no_store_world
           (clauses_found
              (fst (search_similar_chunks (py "cover?") None None no_store_world)))
           (JStr (py "Approved")) JNull
           (JList (fallback_justification (py "cover?")
                     (clauses_found
                        (fst (search_similar_chunks (py "cover?") None None
                                no_store_world)))))).
  - discriminate.
  - reflexivity.
  - discriminate.
  - vm_compute. reflexivity.
  - vm_compute. reflexivity.
  - vm_compute. reflexivity.
  - reflexivity.
Defined.

End NoStoreModel.

Section MoreKeyNamesModel.

#[local] Existing Instance ext_key_names.

Lemma process_query_non_object_decision_witness :
  exists detail,
    fst (process_query {| request_query := Some (py "cover?");
                          request_document_id := None |} key_names_world_two_documents)
    = Raised (HTTPException 500 detail).
Proof.
  apply (process_query_non_object_decision (py "cover?") None
           key_names_world_two_documents
           (clauses_found
              (fst (search_similar_chunks (py "cover?") None None
                      key_names_world_two_documents)))).
  - discriminate.
  - reflexivity.
  - discriminate.
  - intros items. vm_compute. discriminate.
Defined.

End MoreKeyNamesModel.

(** ** Decimal numerals *)

Lemma py_injective (a b : string) : py a = py b -> a = b.
Proof.
  unfold py. intros H.
  rewrite <- (string_of_list_ascii_of_string a), <- (string_of_list_ascii_of_string b).
  f_equal. revert H. generalize (list_ascii_of_string a) (list_ascii_of_string b).
  intros l. induction l as [|x l IH]; intros [|y m] H; simpl in H;
    try reflexivity; try discriminate.
  injection H as Hx Hl. f_equal; [|now apply IH].
  rewrite <- (ascii_N_embedding x), <- (ascii_N_embedding y). now f_equal.
Qed.

Lemma to_int_not_nil (z : Z) :
  Z.to_int z <> Decimal.Pos Decimal.Nil /\ Z.to_int z <> Decimal.Neg Decimal.Nil.
Proof.
  split; intros H; pose proof (f_equal Z.of_int H) as Hz;
    rewrite DecimalZ.of_to in Hz; simpl in Hz; subst z; discriminate H.
Qed.

Lemma str_of_int_injective (a b : Z) : str_of_int a = str_of_int b -> a = b.
Proof.
  unfold str_of_int. intros H. apply py_injective in H.
  apply DecimalZ.to_int_inj.
  destruct (to_int_not_nil a) as [Ha1 Ha2]. destruct (to_int_not_nil b) as [Hb1 Hb2].
  pose proof (DecimalString.NilZero.isi _ Ha1 Ha2) as Ia.
  pose proof (DecimalString.NilZero.isi _ Hb1 Hb2) as Ib.
  rewrite H in Ia. congruence.
Qed.

Lemma uint_digits (u : Decimal.uint) :
  Forall (fun c => c <> 95%N) (py (DecimalString.NilEmpty.string_of_uint u)).
Proof.
  induction u; simpl; constructor; try assumption; discriminate.
Qed.

(** No numeral has an underscore. *)
Lemma str_of_int_no_underscore (z : Z) : Forall (fun c => c <> 95%N) (str_of_int z).
Proof.
  unfold str_of_int. destruct (Z.to_int z) as [u|u]; simpl.
  - destruct u; try apply uint_digits. repeat constructor; discriminate.
  - change (py (String "-" (DecimalString.NilZero.string_of_uint u)))
      with (45%N :: py (DecimalString.NilZero.string_of_uint u)).
    constructor; [discriminate|].
    destruct u; try apply uint_digits. repeat constructor; discriminate.
Qed.

(** Two texts without underscore that are followed by one are equal when
    the whole texts are. *)
Lemma before_underscore (a b x y : str) :
  Forall (fun c => c <> 95%N) a -> Forall (fun c => c <> 95%N) b ->
  a ++ 95%N :: x = b ++ 95%N :: y -> a = b.
Proof.
  revert b. induction a as [|c a IH]; intros [|d b] Ha Hb H; simpl in H.
  - reflexivity.
  - injection H as H _. inversion Hb; subst. congruence.
  - injection H as H _. inversion Ha; subst. congruence.
  - injection H as -> H. f_equal. inversion Ha; inversion Hb; subst. now apply IH.
Qed.

(** ** Lists with their positions *)

Lemma enumerate_from_length {A} (start : Z) (l : list A) :
  List.length (enumerate_from start l) = List.length l.
Proof. revert start. induction l; intros; simpl; [reflexivity | now rewrite IHl]. Qed.

Lemma enumerate_from_nth {A} (l : list A) :
  forall (start : Z) (i : nat) (x : A),
    nth_error l i = Some x ->
    nth_error (enumerate_from start l) i = Some (start + Z.of_nat i, x).
Proof.
  induction l as [|a l IH]; intros start [|i] x H; simpl in *; try discriminate.
  - injection H as ->. f_equal. f_equal. lia.
  - rewrite (IH (start + 1) i x H). f_equal. f_equal. lia.
Qed.

Lemma enumerate_from_bounds {A} (l : list A) :
  forall (start i : Z) (x : A), In (i, x) (enumerate_from start l) -> start <= i.
Proof.
  induction l as [|a l IH]; intros start i x H; simpl in H; [contradiction|].
  destruct H as [[= <- _] | H]; [lia|]. apply IH in H. lia.
Qed.

Lemma enumerate_from_positions {A} (l : list A) :
  forall start, NoDup (map fst (enumerate_from start l)).
Proof.
  induction l as [|a l IH]; intros start; simpl; constructor; [|apply IH].
  intros H. apply in_map_iff in H as [[i x] [Hi Hin]]. simpl in Hi. subst i.
  apply enumerate_from_bounds in Hin. lia.
Qed.

Lemma map_injective_on_positions {A B} (g : Z * A -> B) (l : list (Z * A)) :
  NoDup (map fst l) ->
  (forall a b, g a = g b -> fst a = fst b) ->
  NoDup (map g l).
Proof.
  intros Hnd Hinj. induction l as [|a l IH]; simpl; constructor.
  - intros H. apply in_map_iff in H as [b [Hb Hin]].
    inversion Hnd as [|? ? Hnotin _]; subst. apply Hnotin.
    rewrite (Hinj b a Hb) || rewrite <- (Hinj b a Hb). now apply in_map.
  - apply IH. now inversion Hnd.
Qed.

(** ** The storing of the vectors *)

Section StoreProofs.

Context {ext : Externals}.

(** The batch that [store_embeddings] sends to the index. *)
Definition upsert_batch (embeddings : list vector) (chunks : list str)
    (document_id : Z) (w : world) : list (str * vector * metadata) :=
  map (vector_to_upsert document_id (uuids_drawn w)) (enumerate (combine embeddings chunks)).

Lemma store_embeddings_eq (embeddings : list vector) (chunks : list str)
    (document_id : Z) (w : world) :
  store_embeddings embeddings chunks document_id w
  = (match snd (index_upsert (index w) (upsert_batch embeddings chunks document_id w)) with
     | Some message => Raised (Error message)
     | None => Returned (map (fun v => fst (fst v))
                           (upsert_batch embeddings chunks document_id w))
     end,
     {| trace := trace w ++ [IndexUpsert (upsert_batch embeddings chunks document_id w)];
        index := fst (index_upsert (index w) (upsert_batch embeddings chunks document_id w));
        uuids_drawn := (uuids_drawn w
                        + List.length (enumerate (combine embeddings chunks)))%nat |}).
Proof.
  unfold store_embeddings, upsert_batch.
  destruct (index_upsert _ _) as [index' [message|]]; reflexivity.
Qed.

Lemma vector_id_injective (document_id : Z) (drawn : nat) (i j : Z) :
  vector_id_of document_id drawn i = vector_id_of document_id drawn j -> i = j.
Proof.
  unfold vector_id_of. intros H.
  apply app_inv_head in H. apply app_inv_head in H. apply app_inv_head in H.
  apply str_of_int_injective.
  apply (before_underscore _ _ _ _ (str_of_int_no_underscore i)
           (str_of_int_no_underscore j) H).
Qed.

Lemma upsert_batch_ids_distinct (embeddings : list vector) (chunks : list str)
    (document_id : Z) (w : world) :
  NoDup (map (fun v => fst (fst v)) (upsert_batch embeddings chunks document_id w)).
Proof.
  unfold upsert_batch. rewrite map_map.
  apply map_injective_on_positions; [apply enumerate_from_positions|].
  intros a b H. simpl in H. now apply vector_id_injective in H.
Qed.

Lemma upsert_batch_length (embeddings : list vector) (chunks : list str)
    (document_id : Z) (w : world) :
  List.length (upsert_batch embeddings chunks document_id w)
  = Nat.min (List.length embeddings) (List.length chunks).
Proof.
  unfold upsert_batch, enumerate.
  now rewrite length_map, enumerate_from_length, length_combine.
Qed.

Lemma combine_nth {A B} (la : list A) (lb : list B) :
  forall i a b, nth_error la i = Some a -> nth_error lb i = Some b ->
    nth_error (combine la lb) i = Some (a, b).
Proof.
  revert lb. induction la as [|x la IH]; intros [|y lb] [|i] a b Ha Hb;
    simpl in *; try discriminate.
  - congruence.
  - now apply IH.
Qed.

Lemma upsert_batch_nth (embeddings : list vector) (chunks : list str)
    (document_id : Z) (w : world) (i : nat) (e : vector) (c : str) :
  nth_error embeddings i = Some e -> nth_error chunks i = Some c ->
  nth_error (upsert_batch embeddings chunks document_id w) i
  = Some (vector_id_of document_id (uuids_drawn w) (Z.of_nat i), e,
          {| md_document_id := Some document_id;
             md_chunk_index := Some (Z.of_nat i);
             md_text := Some c |}).
Proof.
  intros He Hc. unfold upsert_batch, enumerate.
  rewrite nth_error_map.
  rewrite (enumerate_from_nth _ 0 i (e, c) (combine_nth _ _ i e c He Hc)).
  reflexivity.
Qed.

End StoreProofs.

(** X11: [store_embeddings] sends one batch to the index, with one vector
    for each pair of an embedding and a chunk (the longer list is cut); the
    vector at position [i] carries embedding [i], the document id, the chunk
    index [i] and the text of chunk [i]. When the upsert raises, the error is
    raised again; otherwise the ids of the batch are returned, in order. *)
Theorem store_embeddings_sends_one_batch {ext : Externals}
    (embeddings : list vector) (chunks : list str) (document_id : Z) (w : world) :
  exists batch,
    trace (snd (store_embeddings embeddings chunks document_id w))
    = trace w ++ [IndexUpsert batch]
    /\ index (snd (store_embeddings embeddings chunks document_id w))
       = fst (index_upsert (index w) batch)
    /\ List.length batch = Nat.min (List.length embeddings) (List.length chunks)
    /\ (forall i e c, nth_error embeddings i = Some e -> nth_error chunks i = Some c ->
          exists id,
            nth_error batch i
            = Some (id, e, {| md_document_id := Some document_id;
                              md_chunk_index := Some (Z.of_nat i);
                              md_text := Some c |}))
    /\ fst (store_embeddings embeddings chunks document_id w)
       = match snd (index_upsert (index w) batch) with
         | Some message => Raised (Error message)
         | None => Returned (map (fun v => fst (fst v)) batch)
         end.
Proof.
  exists (upsert_batch embeddings chunks document_id w).
  rewrite store_embeddings_eq. cbn [fst snd trace index].
  split; [reflexivity|]. split; [reflexivity|].
  split; [apply upsert_batch_length|]. split; [|reflexivity].
  intros i e c He Hc. eexists. now apply upsert_batch_nth.
Qed.

(** X12: the vector ids of one batch are pairwise distinct, whatever the
    random suffixes are: the chunk index before the suffix tells them
    apart. *)
Theorem store_embeddings_ids_distinct {ext : Externals}
    (embeddings : list vector) (chunks : list str) (document_id : Z) (w : world)
    (vector_ids : list str) :
  fst (store_embeddings embeddings chunks document_id w) = Returned vector_ids ->
  NoDup vector_ids
  /\ List.length vector_ids = Nat.min (List.length embeddings) (List.length chunks).
Proof.
  rewrite store_embeddings_eq. cbn [fst].
  destruct (snd (index_upsert _ _)); [discriminate|]. intros [= <-].
  split; [apply upsert_batch_ids_distinct|].
  rewrite length_map. apply upsert_batch_length.
Qed.

(** ** More on the ingestion *)

Lemma lstrip_nil (s : str) : lstrip s = [] -> forallb isspace s = true.
Proof.
  induction s as [|c s IH]; simpl; [reflexivity|].
  destruct (isspace c); simpl; [exact IH | discriminate].
Qed.

Lemma lstrip_head (s : str) (c : N) (r : str) : lstrip s = c :: r -> isspace c = false.
Proof.
  induction s as [|d s IH]; simpl; [discriminate|].
  destruct (isspace d) eqn:Hd; [exact IH | intros [= <- _]; exact Hd].
Qed.

(** Only the blank texts are stripped to nothing. *)
Lemma strip_nil (s : str) : strip s = [] -> forallb isspace s = true.
Proof.
  unfold strip, rstrip. intros H.
  apply (f_equal (@rev N)) in H. rewrite rev_involutive in H. simpl in H.
  apply lstrip_nil in H. apply lstrip_nil.
  destruct (lstrip s) as [|c r] eqn:Hl; [reflexivity|].
  pose proof (lstrip_head _ _ _ Hl) as Hc.
  rewrite forallb_forall in H. specialize (H c).
  rewrite H in Hc; [discriminate|]. apply in_rev. rewrite rev_involutive. now left.
Qed.

Lemma last_segment_without_separator (sep : N) (s : str) :
  Forall (fun c => c <> sep) s -> last_segment sep s = s.
Proof.
  destruct s as [|c s]; intros H; [reflexivity|]. simpl.
  inversion H as [|? ? Hc Hs]; subst.
  assert (He : existsb (N.eqb sep) s = false).
  { clear -Hs. induction Hs as [|x l Hx _ IH]; [reflexivity|]. simpl.
    destruct (N.eqb_spec sep x); [congruence | exact IH]. }
  rewrite He. destruct (N.eqb_spec c sep); [contradiction | reflexivity].
Qed.

(** The last segment is what follows the last separator. *)
Lemma last_segment_after_separator (sep : N) (name extension : str) :
  Forall (fun c => c <> sep) extension ->
  last_segment sep (name ++ sep :: extension) = extension.
Proof.
  intros H.
  assert (He : existsb (N.eqb sep) extension = false).
  { clear -H. induction H as [|x l Hx _ IH]; [reflexivity|]. simpl.
    destruct (N.eqb_spec sep x); [congruence | exact IH]. }
  induction name as [|c name IH]; simpl.
  - now rewrite He, N.eqb_refl.
  - assert (Hin : existsb (N.eqb sep) (name ++ sep :: extension) = true).
    { rewrite existsb_app. simpl. rewrite N.eqb_refl. apply orb_true_iff. right. reflexivity. }
    now rewrite Hin.
Qed.

Section IngestProofs.

Context {ext : Externals}.

Lemma process_document_eq (file_content : bytes) (filename : str)
    (document_id : Z) (w : world) :
  process_document file_content filename document_id w
  = let text := extracted file_content filename in
    if is_empty (strip text)
    then (IngestFailure (py "No text extracted from document"), w)
    else if is_empty (chunk_text text)
    then (IngestFailure (py "No chunks created from text"), w)
    else
      match store_embeddings (create_simple_embeddings (chunk_text text))
              (chunk_text text) document_id w with
      | (Returned vector_ids, w') =>
          (IngestSuccess text (len' (chunk_text text)) vector_ids, w')
      | (Raised e, w') => (IngestFailure (str_of_exn e), w')
      end.
Proof. reflexivity. Qed.

End IngestProofs.

(** X13: when text was extracted and the splitter returns no chunk,
    [process_document] returns the failure [No chunks created from text]
    and leaves the world as it was: nothing is sent to the index. *)
Theorem process_document_without_chunks {ext : Externals}
    (file_content : bytes) (filename : str) (document_id : Z) (w : world) :
  forallb isspace (extracted file_content filename) = false ->
  chunk_text (extracted file_content filename) = [] ->
  process_document file_content filename document_id w
  = (IngestFailure (py "No chunks created from text"), w).
Proof.
  intros Ht Hc. rewrite process_document_eq. cbv zeta.
  destruct (strip (extracted file_content filename)) eqn:Hs.
  - apply strip_nil in Hs. congruence.
  - simpl. now rewrite Hc.
Qed.

(** X14: a success of [process_document] means that the extracted text is
    not blank and was cut into at least one chunk, that [chunks_count] is the
    number of chunks and of vector ids, that the ids are pairwise distinct,
    and that exactly one batch, of one vector for each chunk, was sent to
    the index, which accepted it. *)
Theorem process_document_success {ext : Externals}
    (file_content : bytes) (filename : str) (document_id : Z) (w : world)
    (text : str) (chunks_count : Z) (vector_ids : list str) :
  fst (process_document file_content filename document_id w)
  = IngestSuccess text chunks_count vector_ids ->
  text = extracted file_content filename
  /\ forallb isspace text = false
  /\ chunks_count = len' (chunk_text text)
  /\ 1 <= chunks_count
  /\ len' vector_ids = chunks_count
  /\ NoDup vector_ids
  /\ exists batch,
       trace (snd (process_document file_content filename document_id w))
       = trace w ++ [IndexUpsert batch]
       /\ len' batch = chunks_count
       /\ map (fun v => fst (fst v)) batch = vector_ids
       /\ index_upsert (index w) batch
          = (index (snd (process_document file_content filename document_id w)), None).
Proof.
  rewrite process_document_eq. cbv zeta.
  set (t := extracted file_content filename).
  destruct (strip t) eqn:Hs; [discriminate|]. cbn [is_empty].
  destruct (chunk_text t) as [|c cs] eqn:Hc; [discriminate|]. cbn [is_empty].
  rewrite store_embeddings_eq.
  remember (upsert_batch (create_simple_embeddings (c :: cs)) (c :: cs) document_id w)
    as batch eqn:Hbatch.
  assert (Hlen : List.length batch = List.length (c :: cs)).
  { rewrite Hbatch, upsert_batch_length. unfold create_simple_embeddings.
    rewrite length_map. apply Nat.min_id. }
  assert (Hids : NoDup (map (fun v => fst (fst v)) batch)).
  { rewrite Hbatch. apply upsert_batch_ids_distinct. }
  clear Hbatch.
  destruct (index_upsert (index w) batch) as [index' [message|]] eqn:Hu;
    cbn [fst snd]; [discriminate|].
  intros [= <- <- <-].
  split; [reflexivity|]. split.
  { destruct (forallb isspace t) eqn:Hb; [|reflexivity].
    apply blank_strip in Hb. congruence. }
  split; [now rewrite Hc|]. split; [unfold len'; simpl; lia|].
  split; [unfold len'; now rewrite length_map, Hlen|].
  split; [exact Hids|].
  exists batch. cbn [trace index].
  split; [reflexivity|]. split; [unfold len'; now rewrite Hlen|].
  split; [reflexivity | exact Hu].
Qed.

(** X15: [process_document] fails in three ways only: the text is blank,
    the splitter returned no chunk (in both cases the world is unchanged), or
    the index raised on the batch, and then the error of the result is the
    message of the index. *)
Theorem process_document_failures {ext : Externals}
    (file_content : bytes) (filename : str) (document_id : Z) (w : world) (error : str) :
  fst (process_document file_content filename document_id w) = IngestFailure error ->
  let text := extracted file_content filename in
  (error = py "No text extracted from document"
   /\ forallb isspace text = true
   /\ snd (process_document file_content filename document_id w) = w)
  \/ (error = py "No chunks created from text"
      /\ chunk_text text = []
      /\ snd (process_document file_content filename document_id w) = w)
  \/ (exists batch,
        trace (snd (process_document file_content filename document_id w))
        = trace w ++ [IndexUpsert batch]
        /\ snd (index_upsert (index w) batch) = Some error).
Proof.
  rewrite process_document_eq. cbv zeta.
  set (t := extracted file_content filename).
  destruct (strip t) eqn:Hs; cbn [is_empty].
  - intros [= <-]. left. split; [reflexivity|]. split; [now apply strip_nil | reflexivity].
  - destruct (chunk_text t) as [|c cs] eqn:Hc; cbn [is_empty].
    + intros [= <-]. right. left. repeat split; reflexivity.
    + rewrite store_embeddings_eq.
      remember (upsert_batch (create_simple_embeddings (c :: cs)) (c :: cs) document_id w)
        as batch eqn:Hbatch. clear Hbatch.
      destruct (snd (index_upsert (index w) batch)) as [message|] eqn:Hu;
        cbn [fst snd]; [|discriminate].
      intros [= <-]. right. right. exists batch. split; [reflexivity | exact Hu].
Qed.

(** X16: the reader is chosen by what follows the last dot of the file
    name, whatever the case of its letters: [pdf] gives the PDF reader,
    [docx] and [doc] the DOCX reader, anything else the decoding as text. A
    name without dot is its own file type. *)
Theorem reader_chosen_by_extension {ext : Externals}
    (file_content : bytes) (name extension : str) :
  Forall (fun c => c <> 46%N) extension ->
  (lower extension = py "pdf" ->
     extracted file_content (name ++ 46%N :: extension)
     = extract_text_from_pdf file_content
     /\ extracted file_content extension = extract_text_from_pdf file_content)
  /\ (lower extension = py "docx" \/ lower extension = py "doc" ->
     extracted file_content (name ++ 46%N :: extension)
     = extract_text_from_docx file_content)
  /\ (lower extension <> py "pdf" -> lower extension <> py "docx" ->
      lower extension <> py "doc" ->
     extracted file_content (name ++ 46%N :: extension)
     = decode_utf8_ignore file_content).
Proof.
  intros H. unfold extracted.
  rewrite (last_segment_after_separator 46 name extension H),
    (last_segment_without_separator 46 extension H).
  assert (Hidem : lower (lower extension) = lower extension).
  { unfold lower. rewrite map_map. apply map_ext. intros c. unfold lower_char.
    destruct ((65 <=? c) && (c <=? 90))%N eqn:Hc; [|now rewrite Hc].
    apply andb_true_iff in Hc as [H1 H2].
    apply N.leb_le in H1. apply N.leb_le in H2.
    replace ((65 <=? c + 32) && (c + 32 <=? 90))%N with false; [reflexivity|].
    symmetry. apply andb_false_iff. right. apply N.leb_gt. lia. }
  unfold extract_text. rewrite Hidem.
  split; [|split].
  - intros ->. split; reflexivity.
  - intros [-> | ->]; reflexivity.
  - intros Hp Hx Hd.
    destruct (str_eqb (lower extension) (py "pdf")) eqn:E1;
      [apply str_eqb_eq in E1; contradiction|].
    destruct (str_eqb (lower extension) (py "docx")) eqn:E2;
      [apply str_eqb_eq in E2; contradiction|].
    destruct (str_eqb (lower extension) (py "doc")) eqn:E3;
      [apply str_eqb_eq in E3; contradiction|].
    reflexivity.
Qed.

Section MoreIngestExamples.

#[local] Existing Instance ext_prose.

Lemma store_embeddings_ids_distinct_witness :
  NoDup (clauses_ids_of
           (fst (store_embeddings prose_vectors [py "c0"; py "c1"] 7 prose_world)))
  /\ List.length
       (clauses_ids_of
          (fst (store_embeddings prose_vectors [py "c0"; py "c1"] 7 prose_world)))
     = 2%nat.
Proof.
  apply (store_embeddings_ids_distinct prose_vectors [py "c0"; py "c1"] 7 prose_world).
  reflexivity.
Defined.

Lemma reader_chosen_by_extension_witness :
  extracted [] (py "Policy.v2.PDF") = extract_text_from_pdf [].
Proof.
  apply (proj1 (reader_chosen_by_extension [] (py "Policy.v2") (py "PDF")
                  ltac:(repeat constructor; discriminate))).
  reflexivity.
Defined.

Lemma process_document_success_witness :
  extracted bytes_hi (py "notes.txt") = py "hi"
  /\ 1 <= 1
  /\ NoDup [py "doc_7_chunk_0_0"].
Proof.
  destruct (process_document_success bytes_hi (py "notes.txt") 7 prose_world
              (py "hi") 1 [py "doc_7_chunk_0_0"] eq_refl)
    as (Ht & _ & _ & Hn & _ & Hd & _).
  split; [now symmetry | split; assumption].
Defined.

End MoreIngestExamples.

Section MoreNoStoreModel.

#[local] Existing Instance ext_no_store.

Lemma process_document_without_chunks_witness :
  process_document bytes_hi (py "notes.txt") 7 no_store_world
  = (IngestFailure (py "No chunks created from text"), no_store_world).
Proof.
  apply (process_document_without_chunks bytes_hi (py "notes.txt") 7 no_store_world);
    reflexivity.
Defined.

End MoreNoStoreModel.

Section MoreIndexDown.

#[local] Existing Instance ext_down.

Lemma process_document_failures_witness :
  exists batch,
    trace (snd (process_document bytes_hi (py "notes.txt") 7 down_world))
    = trace down_world ++ [IndexUpsert batch]
    /\ snd (index_upsert (index down_world) batch) = Some (py "index unavailable").
Proof.
  destruct (process_document_failures bytes_hi (py "notes.txt") 7 down_world
              (py "index unavailable") eq_refl)
    as [(H & _) | [(H & _) | H]]; [discriminate H | discriminate H | exact H].
Defined.

End MoreIndexDown.

(** ** The summary *)

Lemma lstrip_idempotent (s : str) : lstrip (lstrip s) = lstrip s.
Proof.
  induction s as [|c s IH]; simpl; [reflexivity|].
  destruct (isspace c) eqn:Hc; [exact IH | simpl; now rewrite Hc].
Qed.

Lemma lstrip_before_nonspace (l : str) (c : N) (r : str) :
  isspace c = false -> lstrip (l ++ c :: r) = lstrip l ++ c :: r.
Proof.
  intros Hc. induction l as [|d l IH]; simpl; [now rewrite Hc|].
  destruct (isspace d); [exact IH | reflexivity].
Qed.

Lemma rstrip_after_nonspace (c : N) (t : str) :
  isspace c = false -> rstrip (c :: t) = c :: rstrip t.
Proof.
  intros Hc. unfold rstrip. simpl rev at 2.
  rewrite (lstrip_before_nonspace (rev t) c [] Hc), rev_app_distr. reflexivity.
Qed.

Lemma rstrip_idempotent (s : str) : rstrip (rstrip s) = rstrip s.
Proof. unfold rstrip. now rewrite rev_involutive, lstrip_idempotent. Qed.

(** A stripped text has no whitespace left to strip. *)
Lemma strip_idempotent (s : str) : strip (strip s) = strip s.
Proof.
  unfold strip. destruct (lstrip s) as [|c t] eqn:Hl; [reflexivity|].
  pose proof (lstrip_head _ _ _ Hl) as Hc.
  rewrite (rstrip_after_nonspace c t Hc), (lstrip_nonspace c _ Hc).
  rewrite <- (rstrip_after_nonspace c t Hc). apply rstrip_idempotent.
Qed.

(** X17: [generate_summary] calls the model once and returns its stripped
    answer, or a fixed sentence when the call raises; either way the summary
    has no whitespace around it. Only the first 3000 characters of the
    document reach the model: documents that agree on them get the same
    prompt and the same summary. *)
Theorem generate_summary_behaviour {ext : Externals}
    (document_text : str) (max_length : Z) (w : world) :
  let summary := fst (generate_summary document_text max_length w) in
  strip summary = summary
  /\ (forall message,
        generate_content (List.length (llm_calls w))
          (generate_summary_prompt document_text max_length) = GenerationError message ->
        summary = py "Unable to generate summary due to system error.")
  /\ (forall text,
        generate_content (List.length (llm_calls w))
          (generate_summary_prompt document_text max_length) = Generated text ->
        summary = strip text)
  /\ (forall other,
        firstn 3000 other = firstn 3000 document_text ->
        generate_summary other max_length w = generate_summary document_text max_length w)
  /\ snd (generate_summary document_text max_length w)
     = log (LLMCall (generate_summary_prompt document_text max_length)) w.
Proof.
  cbv zeta. unfold generate_summary, model_generate_content.
  split; [|split; [|split; [|split]]].
  - destruct (generate_content _ _); cbn [fst]; [apply strip_idempotent | reflexivity].
  - intros message ->. reflexivity.
  - intros text ->. reflexivity.
  - intros other H. unfold generate_summary_prompt, slice_to. now rewrite H.
  - destruct (generate_content _ _); reflexivity.
Qed.

(** ** The [/hackrx/run] handler *)

Section HackrxProofs.

Context {ext : Externals}.

(** The three keys of an answer in the format of the handler. *)
Definition hackrx_answer_shape (r : json) : Prop :=
  exists decision amount justification,
    r = JDict [ (py "decision", decision);
                (py "amount", amount);
                (py "justification", justification) ].

Lemma rejected_shape (clause_id text reason : str) :
  hackrx_answer_shape (rejected clause_id text reason).
Proof. unfold rejected. repeat eexists. Qed.

Lemma hackrx_answer_returns_shape (query_text : str) (document_id : option Z)
    (w w' : world) (r : json) :
  hackrx_answer query_text document_id w = (Returned r, w') -> hackrx_answer_shape r.
Proof.
  unfold hackrx_answer, bind, lift.
  destruct (parse_query query_text w) as [parsed w1].
  rewrite search_similar_chunks_eq.
  destruct (is_empty _).
  - unfold ret. intros [= <- _]. apply rejected_shape.
  - destruct (make_decision _ _ _ _) as [dr w3].
    unfold subscript, db_add_query, ret, raise.
    destruct (getitem dr (py "decision")); [|discriminate].
    destruct (getitem dr (py "amount")); [|discriminate].
    destruct (getitem dr (py "justification")); [|discriminate].
    destruct (db_insert_query _ _ _ _ _); [discriminate|].
    intros [= <- _]. repeat eexists.
Qed.

End HackrxProofs.

(** X18: for a request in the old format the [/hackrx/run] handler never
    raises: it always returns an object with exactly the keys [decision],
    [amount] and [justification], whatever the model, the index and the
    store do. *)
Theorem hackrx_run_always_answers {ext : Externals}
    (latest_processed_document : str + option Z) (request : hackrx_request) (w : world) :
  exists decision amount justification,
    fst (hackrx_run_endpoint latest_processed_document request w)
    = Returned (JDict [ (py "decision", decision);
                        (py "amount", amount);
                        (py "justification", justification) ]).
Proof.
  unfold hackrx_run_endpoint, try_except.
  match goal with
  | |- context [match ?m w with _ => _ end] => destruct (m w) as [[r|e] w'] eqn:Hm
  end.
  - assert (Hshape : hackrx_answer_shape r).
    { revert Hm.
      destruct (if nonempty_str (hackrx_query request) then hackrx_query request
                else hackrx_question request) as [[|c q]|];
        try (unfold raise; discriminate).
      destruct (negb (nonempty_str (hackrx_document_url request))).
      - destruct latest_processed_document as [message|[document_id|]].
        + unfold raise. discriminate.
        + apply hackrx_answer_returns_shape.
        + unfold ret. intros [= <- _]. apply rejected_shape.
      - apply hackrx_answer_returns_shape. }
    destruct Hshape as (d & a & j & ->). now exists d, a, j.
  - unfold ret. cbn [fst]. unfold system_error_response, rejected. repeat eexists.
Qed.

(** X19: the handler answers without calling the model, the index or the
    writing of a row in three cases, each with a decision [Rejected]: no
    query and no question (the text of the entry is the one of the exception
    of status 400 that the handler raised for itself), no document URL and no
    processed
    document, and no document URL and a store that raises on the lookup. *)
Theorem hackrx_run_early_answers {ext : Externals}
    (latest_processed_document : str + option Z) (request : hackrx_request) (w : world) :
  (nonempty_str (hackrx_query request) = false ->
   nonempty_str (hackrx_question request) = false ->
   hackrx_run_endpoint latest_processed_document request w
   = (Returned (rejected (py "system_error")
                  (py "System error: "
                   ++ str_of_exn (HTTPException 400 (py "Query/question is required")))
                  (py "Unable to process request due to system error")), w))
  /\ (nonempty_str (hackrx_query request) = true
      \/ nonempty_str (hackrx_question request) = true ->
      nonempty_str (hackrx_document_url request) = false ->
      (latest_processed_document = inr None ->
       hackrx_run_endpoint latest_processed_document request w
       = (Returned (rejected (py "no_document") (py "No processed documents available")
                      (py "No documents have been uploaded and processed")), w))
      /\ (forall message,
            latest_processed_document = inl message ->
            hackrx_run_endpoint latest_processed_document request w
            = (Returned (rejected (py "system_error") (py "System error: " ++ message)
                           (py "Unable to process request due to system error")), w))).
Proof.
  unfold hackrx_run_endpoint, try_except. split.
  - intros Hq Hn. rewrite Hq.
    destruct (hackrx_question request) as [[|c q]|]; [reflexivity | discriminate | reflexivity].
  - intros Hsome Hurl. rewrite Hurl. cbn [negb].
    assert (Hq : exists c q,
               (if nonempty_str (hackrx_query request) then hackrx_query request
                else hackrx_question request) = Some (c :: q)).
    { destruct (hackrx_query request) as [[|c q]|]; cbn [nonempty_str] in *.
      - destruct Hsome as [H|H]; [discriminate|].
        destruct (hackrx_question request) as [[|c q]|]; try discriminate. now exists c, q.
      - now exists c, q.
      - destruct Hsome as [H|H]; [discriminate|].
        destruct (hackrx_question request) as [[|c q]|]; try discriminate. now exists c, q. }
    destruct Hq as (c & q & ->).
    split; [intros -> | intros message ->]; reflexivity.
Qed.

(** ** The bearer token *)

(** X20: [verify_hackrx_token] returns for exactly one header, [Bearer]
    followed by a space and the token, and then returns the token; every
    other header, a missing one and an empty one raise an [HTTPException] of
    status 401. *)
Theorem verify_hackrx_token_accepts_one_header (authorization : option str) :
  (forall token,
     verify_hackrx_token authorization = Returned token ->
     authorization = Some (py "Bearer " ++ HACKRX_TOKEN) /\ token = HACKRX_TOKEN)
  /\ verify_hackrx_token (Some (py "Bearer " ++ HACKRX_TOKEN)) = Returned HACKRX_TOKEN
  /\ (forall e,
        verify_hackrx_token authorization = Raised e ->
        exists detail, e = HTTPException 401 detail).
Proof.
  split; [|split].
  - intros token. unfold verify_hackrx_token.
    destruct authorization as [[|c header]|]; try discriminate.
    destruct (startswith (py "Bearer ") (c :: header)) eqn:Hs; cbn [negb]; [|discriminate].
    destruct (str_eqb (skipn 7 (c :: header)) HACKRX_TOKEN) eqn:Ht; cbn [negb];
      [|discriminate].
    intros [= <-]. apply str_eqb_eq in Ht. split; [|exact Ht].
    f_equal. rewrite <- Ht. apply (startswith_split _ _ Hs).
  - vm_compute. reflexivity.
  - intros e. unfold verify_hackrx_token.
    destruct authorization as [[|c header]|]; try (intros [= <-]; eexists; reflexivity).
    destruct (negb (startswith _ _)); [intros [= <-]; eexists; reflexivity|].
    destruct (negb (str_eqb _ _)); [intros [= <-]; eexists; reflexivity | discriminate].
Qed.

Section MoreProseAnswers.

#[local] Existing Instance ext_prose.

Lemma generate_summary_behaviour_witness :
  generate_summary (repeat 97%N 3000 ++ py "tail one") 500 prose_world
  = generate_summary (repeat 97%N 3000) 500 prose_world.
Proof.
  apply (proj1 (proj2 (proj2 (proj2 (generate_summary_behaviour (repeat 97%N 3000) 500
                                       prose_world))))).
  vm_compute. reflexivity.
Defined.

Lemma hackrx_run_early_answers_witness :
  hackrx_run_endpoint (inr None)
    {| hackrx_query := Some []; hackrx_question := Some (py "cover?");
       hackrx_document_url := None |} prose_world
  = (Returned (rejected (py "no_document") (py "No processed documents available")
                 (py "No documents have been uploaded and processed")), prose_world).
Proof.
  apply (proj2 (hackrx_run_early_answers (inr None)
                  {| hackrx_query := Some []; hackrx_question := Some (py "cover?");
                     hackrx_document_url := None |} prose_world)).
  - right. reflexivity.
  - reflexivity.
  - reflexivity.
Defined.

(** With a processed document, the question of the request is answered from
    the clauses of that document. *)
Example hackrx_run_uses_latest_document :
  fst (hackrx_run_endpoint (inr (Some 7))
         {| hackrx_query := None; hackrx_question := Some (py "cover?");
            hackrx_document_url := None |} prose_world_two_documents)
  = Returned (fallback_decision (py "cover?")
                (clauses_found
                   (fst (search_similar_chunks (py "cover?") (Some 7) None
                           prose_world_two_documents)))).
Proof. vm_compute. reflexivity. Qed.

End MoreProseAnswers.

Lemma verify_hackrx_token_accepts_one_header_witness :
  Some (py "Bearer " ++ HACKRX_TOKEN) = Some (py "Bearer " ++ HACKRX_TOKEN)
  /\ HACKRX_TOKEN = HACKRX_TOKEN.
Proof.
  apply (proj1 (verify_hackrx_token_accepts_one_header
                  (Some (py "Bearer " ++ HACKRX_TOKEN))) HACKRX_TOKEN).
  vm_compute. reflexivity.
Defined.

(** ** The simplified processor *)

Lemma range_length (n : Z) : len' (range n) = Z.max 0 n.
Proof. unfold len', range. rewrite length_map, length_seq. lia. Qed.

Lemma seq_nth_error (n : nat) :
  forall (s i k : nat), nth_error (seq s n) i = Some k -> k = (s + i)%nat.
Proof.
  induction n as [|n IH]; intros s [|i] k H; simpl in H; try discriminate.
  - injection H as <-. lia.
  - apply IH in H. lia.
Qed.

Lemma range_nth (n : Z) (i : nat) (z : Z) :
  nth_error (range n) i = Some z -> z = Z.of_nat i.
Proof.
  unfold range. rewrite nth_error_map.
  destruct (nth_error (seq 0 (Z.to_nat n)) i) as [k|] eqn:Hk; [|discriminate].
  intros [= <-]. apply seq_nth_error in Hk. now subst k.
Qed.

(** X21: the mock search returns [min top_k 3] results, none when [top_k]
    is not positive; the result at position [i] has the id [mock_i], the
    chunk index [i], the rank [i] for its score, and a text that carries the
    query. *)
Theorem mock_search_results (query : str) (top_k : Z) :
  len' (search_similar_documents query top_k) = Z.max 0 (Z.min top_k 3)
  /\ len' (search_similar_documents query top_k) <= 3
  /\ forall i r,
       nth_error (search_similar_documents query top_k) i = Some r ->
       mock_id r = py "mock_" ++ str_of_int (Z.of_nat i)
       /\ mock_chunk_index r = Z.of_nat i
       /\ mock_score_rank r = Z.of_nat i
       /\ mock_text r = py "Mock relevant content " ++ str_of_int (Z.of_nat i + 1)
                        ++ py " for query: " ++ query.
Proof.
  assert (Hlen : len' (search_similar_documents query top_k) = Z.max 0 (Z.min top_k 3)).
  { unfold search_similar_documents, len'. rewrite length_map. apply range_length. }
  split; [exact Hlen|]. split; [rewrite Hlen; lia|].
  intros i r H. unfold search_similar_documents in H. rewrite nth_error_map in H.
  destruct (nth_error (range (Z.min top_k 3)) i) as [z|] eqn:Hz; [|discriminate].
  apply range_nth in Hz. subst z. injection H as <-. repeat split.
Qed.

(** Reading the two hexadecimal digits of a byte gives the byte back. *)
Lemma int16_of_hex (b : Byte.byte) :
  int16 [hex_digit (Byte.to_N b / 16); hex_digit (Byte.to_N b mod 16)]
  = Some (Z.of_N (Byte.to_N b)).
Proof. destruct b; reflexivity. Qed.

Lemma slices_of_hex (digest : bytes) :
  slices_of_two (hex_of_bytes digest)
  = map (fun b => [hex_digit (Byte.to_N b / 16); hex_digit (Byte.to_N b mod 16)]) digest.
Proof.
  induction digest as [|b digest IH]; [reflexivity|].
  simpl. now rewrite <- IH.
Qed.

Section SimpleProofs.

Context {ext : Externals} {simple : SimpleExternals}.

(** The components read from a digest. *)
Definition digest_components (digest : bytes) : list component :=
  map (fun b => Over255 (Z.of_N (Byte.to_N b))) digest.

Lemma create_embeddings_eq (text : str) (digest : bytes) :
  md5_digest text = Some digest ->
  create_embeddings text
  = Returned (firstn 768 (digest_components digest
                          ++ repeat Padding (768 - List.length digest))).
Proof.
  intros H. unfold create_embeddings. rewrite H, slices_of_hex.
  set (step := fun (acc : result (list component)) (pair : str) => _).
  assert (Hfold : forall d acc,
             fold_left step
               (map (fun b => [hex_digit (Byte.to_N b / 16); hex_digit (Byte.to_N b mod 16)])
                  d)
               (Returned acc)
             = Returned (acc ++ digest_components d)).
  { intros d. induction d as [|b d IH]; intros acc.
    - simpl. now rewrite app_nil_r.
    - cbn [map fold_left].
      replace (step (Returned acc)
                 [hex_digit (Byte.to_N b / 16); hex_digit (Byte.to_N b mod 16)])
        with (@Returned (list component) (acc ++ [Over255 (Z.of_N (Byte.to_N b))])).
      + rewrite IH. simpl. now rewrite <- app_assoc.
      + unfold step. now rewrite int16_of_hex. }
  rewrite Hfold. simpl app. unfold digest_components. now rewrite length_map.
Qed.

Lemma embed_chunks_returns (url : str) (items : list (Z * str)) :
  (forall item, In item items -> md5_digest (snd item) <> None) ->
  exists data, embed_chunks url items = Returned data.
Proof.
  induction items as [|[i chunk] items IH]; intros H; simpl; [now eexists|].
  destruct (md5_digest chunk) as [digest|] eqn:Hd.
  - rewrite (create_embeddings_eq chunk digest Hd).
    destruct IH as [data ->]; [intros item Hin; apply H; now right | now eexists].
  - exfalso. apply (H (i, chunk)); [now left | exact Hd].
Qed.

Lemma enumerate_from_snd {A} (l : list A) :
  forall start (item : Z * A), In item (enumerate_from start l) -> In (snd item) l.
Proof.
  induction l as [|a l IH]; intros start item H; simpl in H; [contradiction|].
  destruct H as [<- | H]; [now left | right; now apply (IH (start + 1))].
Qed.

End SimpleProofs.

(** X22: a mock embedding always has 768 components, whatever the text:
    the bytes of the digest, each over 255, in order, then the padding. The
    call fails only when the text has no digest. *)
Theorem create_embeddings_dimension {simple : SimpleExternals} (text : str) :
  (forall embedding,
     create_embeddings text = Returned embedding -> List.length embedding = 768%nat)
  /\ (forall digest,
        md5_digest text = Some digest ->
        (List.length digest <= 768)%nat ->
        create_embeddings text
        = Returned (map (fun b => Over255 (Z.of_N (Byte.to_N b))) digest
                    ++ repeat Padding (768 - List.length digest)))
  /\ (md5_digest text = None -> exists e, create_embeddings text = Raised e).
Proof.
  split; [|split].
  - intros embedding. destruct (md5_digest text) as [digest|] eqn:Hd.
    + rewrite (create_embeddings_eq text digest Hd). intros Heq.
      apply (f_equal (fun r => match r with
                               | Returned e => List.length e
                               | Raised _ => 0%nat
                               end)) in Heq.
      cbv beta iota in Heq. rewrite <- Heq.
      rewrite length_firstn, length_app, repeat_length.
      unfold digest_components. rewrite length_map. lia.
    + unfold create_embeddings. rewrite Hd. discriminate.
  - intros digest Hd Hle. rewrite (create_embeddings_eq text digest Hd).
    f_equal. apply firstn_all2.
    rewrite length_app, repeat_length. unfold digest_components.
    rewrite length_map. lia.
  - intros Hd. unfold create_embeddings. rewrite Hd. now eexists.
Qed.

(** X23: [process_document_from_url] fails, with the message [Failed to
    process document], when the download raises and when the status of the
    response is between 400 and 599; the error is the one of the download. *)
Theorem process_document_from_url_download_failure
    {ext : Externals} {simple : SimpleExternals} (url : str) :
  (forall message,
     requests_get url = inl message ->
     process_document_from_url url = UrlFailure message (py "Failed to process document"))
  /\ (forall response,
        requests_get url = inr response ->
        400 <= status_code response < 600 ->
        exists error,
          process_document_from_url url
          = UrlFailure error (py "Failed to process document")).
Proof.
  unfold process_document_from_url. split.
  - intros message ->. reflexivity.
  - intros response -> [H1 H2]. unfold raise_for_status.
    replace (400 <=? status_code response) with true by (symmetry; apply Z.leb_le; lia).
    replace (status_code response <? 600) with true by (symmetry; apply Z.ltb_lt; lia).
    simpl. now eexists.
Qed.

(** X24: a PDF that cannot be read is not reported: for a URL that ends
    in [.pdf], in any case of letters, whose content the reader rejects, the
    processing succeeds with one chunk, the sample sentence of the
    extractor. *)
Theorem process_document_from_url_unreadable_pdf
    {ext : Externals} {simple : SimpleExternals} (url : str) (response : http_response) :
  requests_get url = inr response ->
  ~ 400 <= status_code response < 600 ->
  endswith (py ".pdf") (lower url) = true ->
  pdf_pages (content response) = None ->
  md5_digest (py "Sample document content for testing purposes.") <> None ->
  process_document_from_url url
  = UrlSuccess (py "Processed 1 chunks from document") 1
      (py "Sample document content for testing purposes.").
Proof.
  intros Hget Hstatus Hpdf Hpages Hmd5. unfold process_document_from_url.
  rewrite Hget. unfold raise_for_status.
  destruct ((400 <=? status_code response) && (status_code response <? 600)) eqn:Hs.
  { apply andb_true_iff in Hs as [H1 H2]. apply Z.leb_le in H1. apply Z.ltb_lt in H2.
    exfalso. apply Hstatus. lia. }
  rewrite Hpdf. unfold simple_extract_text_from_pdf. rewrite Hpages.
  change (SimpleDocumentProcessor.split_text_into_chunks
            (py "Sample document content for testing purposes.")
            SimpleDocumentProcessor.default_chunk_size)
    with [py "Sample document content for testing purposes."].
  destruct (embed_chunks_returns url
              (enumerate [py "Sample document content for testing purposes."]))
    as [data ->].
  - intros item [<- | []]. exact Hmd5.
  - reflexivity.
Qed.

(** X25: a success of [process_document_from_url] reports the number of
    chunks of the text cut at the default size of 1000, in [chunks_count] and
    in its message, and a sample of the text of at most 503 characters: the
    text itself when it has at most 500 characters. There is no guard on an
    empty text: a page that is downloaded with a status outside 400 to 599
    and whose text is blank is a success with no chunk. *)
Theorem process_document_from_url_success
    {ext : Externals} {simple : SimpleExternals} (url : str) :
  (forall message chunks_count sample_text,
     process_document_from_url url = UrlSuccess message chunks_count sample_text ->
     exists response text,
       requests_get url = inr response
       /\ text = (if endswith (py ".pdf") (lower url)
                  then simple_extract_text_from_pdf (content response)
                  else response_text response)
       /\ chunks_count = len' (SimpleDocumentProcessor.split_text_into_chunks text 1000)
       /\ message = py "Processed " ++ str_of_int chunks_count
                    ++ py " chunks from document"
       /\ len sample_text <= 503
       /\ (len text <= 500 -> sample_text = text)
       /\ (forallb isspace text = true -> chunks_count = 0))
  /\ (forall response,
        requests_get url = inr response ->
        ~ 400 <= status_code response < 600 ->
        let text := if endswith (py ".pdf") (lower url)
                    then simple_extract_text_from_pdf (content response)
                    else response_text response in
        forallb isspace text = true ->
        process_document_from_url url
        = UrlSuccess (py "Processed 0 chunks from document") 0
            (if len text >? 500 then firstn 500 text ++ py "..." else text)).
Proof.
  split.
  - intros message chunks_count sample_text. unfold process_document_from_url.
    destruct (requests_get url) as [m|response]; [discriminate|].
    destruct (raise_for_status response); [discriminate|].
    set (text := if endswith (py ".pdf") (lower url) then _ else _).
    destruct (embed_chunks url _); [|discriminate].
    intros [= <- <- <-]. exists response, text.
    split; [reflexivity|]. split; [reflexivity|]. split; [reflexivity|].
    split; [reflexivity|]. unfold sample_of. split; [|split].
    + destruct (len text >? 500) eqn:Hl.
      * rewrite len_app. change (len (py "...")) with 3.
        unfold len, slice_to. pose proof (firstn_le_length 500 text). lia.
      * rewrite Z.gtb_ltb in Hl. apply Z.ltb_ge in Hl. lia.
    + intros Hle. replace (len text >? 500) with false; [reflexivity|].
      symmetry. rewrite Z.gtb_ltb. apply Z.ltb_ge. lia.
    + intros Hb.
      change SimpleDocumentProcessor.default_chunk_size with 1000.
      rewrite (ChunkerProofs.chunks_of_blank text 1000); [reflexivity|].
      now apply split_nil_iff.
  - intros response Hget Hstatus text Hblank. unfold process_document_from_url.
    rewrite Hget. unfold raise_for_status.
    destruct ((400 <=? status_code response) && (status_code response <? 600)) eqn:Hs.
    { apply andb_true_iff in Hs as [H1 H2]. apply Z.leb_le in H1. apply Z.ltb_lt in H2.
      exfalso. apply Hstatus. lia. }
    fold text. change SimpleDocumentProcessor.default_chunk_size with 1000.
    rewrite (ChunkerProofs.chunks_of_blank text 1000) by now apply split_nil_iff.
    reflexivity.
Qed.

Section SimpleExamples.

#[local] Existing Instance ext_prose.
#[local] Existing Instance simple_mock.

Lemma create_embeddings_dimension_witness :
  create_embeddings (py "cover")
  = Returned (repeat (Over255 255) 16 ++ repeat Padding 752).
Proof.
  apply (proj1 (proj2 (create_embeddings_dimension (py "cover"))) (repeat Byte.xff 16)).
  - reflexivity.
  - simpl. lia.
Defined.

Lemma process_document_from_url_download_failure_witness :
  process_document_from_url (py "ftp://host/policy.pdf")
  = UrlFailure (py "connection refused") (py "Failed to process document").
Proof.
  apply (proj1 (process_document_from_url_download_failure (py "ftp://host/policy.pdf"))).
  reflexivity.
Defined.

Lemma process_document_from_url_unreadable_pdf_witness :
  process_document_from_url (py "https://host/Policy.PDF")
  = UrlSuccess (py "Processed 1 chunks from document") 1
      (py "Sample document content for testing purposes.").
Proof.
  apply (process_document_from_url_unreadable_pdf (py "https://host/Policy.PDF")
           {| status_code := 200; content := [];
              response_text := py "plain text of the page" |}).
  - reflexivity.
  - simpl. lia.
  - reflexivity.
  - reflexivity.
  - discriminate.
Defined.

Lemma process_document_from_url_success_witness :
  len (py "plain text of the page") <= 503
  /\ process_document_from_url (ext := ext_down) (py "https://host/blank.pdf")
     = UrlSuccess (py "Processed 0 chunks from document") 0 (py "  " ++ newline).
Proof.
  split.
  - assert (Hrun : process_document_from_url (py "https://host/page")
                   = UrlSuccess (py "Processed 1 chunks from document") 1
                       (py "plain text of the page")) by (vm_compute; reflexivity).
    destruct (proj1 (process_document_from_url_success (py "https://host/page"))
                (py "Processed 1 chunks from document") 1 (py "plain text of the page")
                Hrun)
      as (response & text & _ & _ & _ & _ & H & _).
    exact H.
  - apply (proj2 (process_document_from_url_success (ext := ext_down)
                    (py "https://host/blank.pdf"))
             {| status_code := 200; content := [];
                response_text := py "plain text of the page" |}).
    + reflexivity.
    + simpl. lia.
    + reflexivity.
Defined.

End SimpleExamples.
